(** * Purchase: the project/PO operations of [gemini2.py] (class [Api])

    A shallow embedding of the file-backed operations of the purchase-order
    tool: project creation and name sanitisation, sheet listing, PO creation
    from the template, PO "deletion" (tab recolouring), saving PO data and the
    vendor-detail scan.

    Conventions of the model.
    - A Python [str] is a [string] whose characters are the code points
      0..255; the predicates [isalnum], [isdigit], [isspace] below are
      Python's [str] methods on that range.
    - A workbook is what openpyxl keeps of a file: an ordered list of sheets,
      each with a title, a tab colour and a finite map of cells. Loading and
      saving are inverse to each other on this view, and assigning a value
      to a cell stores that value.
    - The file system is the [projects] directory (in [os.listdir] order) and
      the template file; project names are plain file names.
    - Each API method is a function from the file system to the new file
      system and the dictionary it returns; [print] output is not part of the
      state except where a definition says so. *)

From Stdlib Require Import NArith ZArith Ascii String List Bool Lia.
From Stdlib Require Import Sorting.Permutation Sorting.Sorted.
From stdpp Require Import base option list strings pretty gmap fin_maps.

Local Open Scope string_scope.
Local Open Scope list_scope.

(** ** Python strings *)

Module PyStr.

Definition ord (c : ascii) : N := N_of_ascii c.

Definition in_range (lo hi : N) (c : ascii) : bool :=
  ((lo <=? ord c) && (ord c <=? hi))%N.

Definition is_cp (n : N) (c : ascii) : bool := (ord c =? n)%N.

(** [str.isdecimal]: category Nd, which below 256 is '0'..'9'. *)
Definition isdecimal (c : ascii) : bool := in_range 48 57 c.

(** [str.isdigit]: the decimals and the characters of numeric type Digit;
    below 256 these are the superscripts two, three and one. *)
Definition isdigit (c : ascii) : bool :=
  isdecimal c || is_cp 178 c || is_cp 179 c || is_cp 185 c.

(** [str.isnumeric]: adds the vulgar fractions 188..190. *)
Definition isnumeric (c : ascii) : bool := isdigit c || in_range 188 190 c.

(** [str.isalpha]: the letter categories. *)
Definition isalpha (c : ascii) : bool :=
  in_range 65 90 c || in_range 97 122 c
  || is_cp 170 c || is_cp 181 c || is_cp 186 c
  || in_range 192 214 c || in_range 216 246 c || in_range 248 255 c.

(** [str.isalnum] is the disjunction of the four tests. *)
Definition isalnum (c : ascii) : bool :=
  isalpha c || isdecimal c || isdigit c || isnumeric c.

(** [str.isspace]: tab..carriage return, the separators 28..31, space,
    NEL (133) and the no-break space (160). *)
Definition isspace (c : ascii) : bool :=
  in_range 9 13 c || in_range 28 31 c || is_cp 32 c
  || is_cp 133 c || is_cp 160 c.

(** [str.join] of the empty separator over [filter(p, s)], or over
    [c for c in s if p c]. *)
Fixpoint str_filter (p : ascii -> bool) (s : string) : string :=
  match s with
  | EmptyString => EmptyString
  | String c s' => if p c then String c (str_filter p s') else str_filter p s'
  end.

Fixpoint lstrip (s : string) : string :=
  match s with
  | EmptyString => EmptyString
  | String c s' => if isspace c then lstrip s' else s
  end.

Fixpoint rstrip (s : string) : string :=
  match s with
  | EmptyString => EmptyString
  | String c s' =>
      match rstrip s' with
      | EmptyString => if isspace c then EmptyString else String c EmptyString
      | r => String c r
      end
  end.

(** [s.strip()] with no argument. *)
Definition strip (s : string) : string := rstrip (lstrip s).

(** [s.startswith(p)]. *)
Fixpoint startswith (p s : string) : bool :=
  match p, s with
  | EmptyString, _ => true
  | String a p', String b s' => Ascii.eqb a b && startswith p' s'
  | String _ _, EmptyString => false
  end.

Definition chars (s : string) : list ascii := list_ascii_of_string s.

Definition first_char (s : string) : option ascii := head (chars s).
Definition last_char (s : string) : option ascii := last (chars s).

(** A run of [n] spaces. *)
Fixpoint spaces (n : nat) : string :=
  match n with
  | O => EmptyString
  | S n' => String " " (spaces n')
  end.

(** The value of a run of decimal digits, most significant first. *)
Fixpoint decimal_value (acc : N) (s : string) : option N :=
  match s with
  | EmptyString => Some acc
  | String c s' =>
      if isdecimal c then decimal_value (10 * acc + (ord c - 48)) s' else None
  end.

(** [int(s)] on a string made of [isdigit] characters (all the call site
    passes): the empty string and a string with a character that is not a
    decimal digit raise [ValueError], modelled as [None]. Integers are
    unbounded; the cap some interpreters put on the number of digits [int]
    reads (4300 by default) is beyond any sheet title and is not modelled. *)
Definition int (s : string) : option N :=
  match s with
  | EmptyString => None
  | _ => decimal_value 0 s
  end.

End PyStr.

Import PyStr.

(** ** [create_excel_file]: the sanitised name *)

(** [c.isalnum() or c in (' ', '.', '_')] *)
Definition safe_char (c : ascii) : bool :=
  isalnum c || (Ascii.eqb c " " || Ascii.eqb c "." || Ascii.eqb c "_").

Definition fallback_name : string := "untitled_project".

(** Lines 43-45: filter, strip, fall back when nothing is left. *)
Definition safe_project_name (project_name : string) : string :=
  let safe := strip (str_filter safe_char project_name) in
  match safe with
  | EmptyString => fallback_name
  | _ => safe
  end.

(** ** [get_po_sheets]: the sort key *)

(** The values the key function returns: an [int] or [float('inf')]. *)
Inductive sheet_number :=
| Int (n : N)
| FloatInf.

(** [a <= b] on those values. *)
Definition number_le (a b : sheet_number) : bool :=
  match a, b with
  | Int x, Int y => (x <=? y)%N
  | Int _, FloatInf => true
  | FloatInf, Int _ => false
  | FloatInf, FloatInf => true
  end.

Definition get_sheet_number (sheet_name : string) : sheet_number :=
  let num := str_filter isdigit sheet_name in
  match num with
  | EmptyString => FloatInf
  | _ => match int num with
         | Some n => Int n
         | None => FloatInf        (* except ValueError *)
         end
  end.

(** [list.sort(key=...)] is a stable ascending sort; insertion from the right
    computes the same list. *)
Section Sort.
Context {A : Type} (key : A -> sheet_number).

Fixpoint insert_by (x : A) (l : list A) : list A :=
  match l with
  | [] => [x]
  | y :: l' =>
      if number_le (key x) (key y) then x :: l else y :: insert_by x l'
  end.

Fixpoint sort_by (l : list A) : list A :=
  match l with
  | [] => []
  | x :: l' => insert_by x (sort_by l')
  end.
End Sort.

(** ** Workbooks *)

(** Exceptions the operations can meet. *)
Inductive exn :=
| ValueError
| TypeError
| AttributeError
| InvalidFileException      (* load_workbook on a file that is no workbook *)
| PermissionError           (* save on a file another program holds open *)
| FileNotFoundError.

(** Cell values as openpyxl hands them over. Numbers are carried as integers;
    the operations here only store and compare them with the empty string. *)
Inductive value :=
| VNone
| VStr (s : string)
| VNum (z : Z)
| VBool (b : bool)
| VDatetime (t : Z)         (* datetime.datetime, ordered by its instant *)
| VTime (t : Z).            (* datetime.time: a date-like value that is no datetime *)

(** Style attribute values are opaque to this program. *)
Definition attr : Type := option string.

Record Font := {
  font_name : attr; font_size : attr; font_bold : attr; font_italic : attr;
  font_vertAlign : attr; font_underline : attr; font_strike : attr;
  font_color : attr }.

Record Border := {
  border_left : attr; border_right : attr; border_top : attr;
  border_bottom : attr }.

Record PatternFill := {
  fill_type : attr; start_color : attr; end_color : attr }.

Record Alignment := {
  horizontal : attr; vertical : attr; text_rotation : attr; wrap_text : attr;
  shrink_to_fit : attr; indent : attr }.

Record style := {
  font : Font; border : Border; fill : PatternFill; number_format : attr;
  alignment : Alignment }.

Definition default_style : style :=
  {| font := Build_Font None None None None None None None None;
     border := Build_Border None None None None;
     fill := Build_PatternFill None None None;
     number_format := Some "General";
     alignment := Build_Alignment None None None None None None |}.

Record cell := { cell_value : value; cell_style : style }.

Definition empty_cell : cell :=
  {| cell_value := VNone; cell_style := default_style |}.

#[global] Instance attr_eq_dec : EqDecision attr.
Proof. unfold attr. apply _. Defined.
#[global] Instance Font_eq_dec : EqDecision Font.
Proof. solve_decision. Defined.
#[global] Instance Border_eq_dec : EqDecision Border.
Proof. solve_decision. Defined.
#[global] Instance PatternFill_eq_dec : EqDecision PatternFill.
Proof. solve_decision. Defined.
#[global] Instance Alignment_eq_dec : EqDecision Alignment.
Proof. solve_decision. Defined.
#[global] Instance style_eq_dec : EqDecision style.
Proof. solve_decision. Defined.

(** [cell.has_style]: the cell carries a style other than the default. *)
Definition has_style (c : cell) : bool :=
  bool_decide (cell_style c <> default_style).

(** A coordinate is (row, column), both from 1: ["B2"] is [(2, 2)]. *)
Definition coord : Type := positive * positive.

Definition col_A : positive := 1.
Definition col_B : positive := 2.
Definition col_C : positive := 3.
Definition col_D : positive := 4.

Definition B2 : coord := (2%positive, col_B).
Definition B3 : coord := (3%positive, col_B).
Definition B4 : coord := (4%positive, col_B).
Definition B5 : coord := (5%positive, col_B).
Definition B6 : coord := (6%positive, col_B).
Definition B7 : coord := (7%positive, col_B).
Definition B8 : coord := (8%positive, col_B).

Record worksheet := {
  title : string;
  tabColor : option string;          (* sheet_properties.tabColor *)
  cells : gmap coord cell }.

(** A workbook is its sheets in tab order. *)
Definition workbook : Type := list worksheet.

(** [ws[coordinate]]: a cell never written reads as an empty one. *)
Definition get_cell (ws : worksheet) (k : coord) : cell :=
  default empty_cell (cells ws !! k).

Definition set_cells (ws : worksheet) (m : gmap coord cell) : worksheet :=
  {| title := title ws; tabColor := tabColor ws; cells := m |}.

(** [ws[coordinate] = v], that is [ws[coordinate].value = v]: the style of
    the cell stays. *)
Definition set_value (k : coord) (v : value) (ws : worksheet) : worksheet :=
  set_cells ws
    (<[k := {| cell_value := v; cell_style := cell_style (get_cell ws k) |}]>
       (cells ws)).

Definition set_style (k : coord) (st : style) (ws : worksheet) : worksheet :=
  set_cells ws
    (<[k := {| cell_value := cell_value (get_cell ws k); cell_style := st |}]>
       (cells ws)).

Definition set_tabColor (color : string) (ws : worksheet) : worksheet :=
  {| title := title ws; tabColor := Some color; cells := cells ws |}.

Definition set_title (t : string) (ws : worksheet) : worksheet :=
  {| title := t; tabColor := tabColor ws; cells := cells ws |}.

Definition empty_sheet (t : string) : worksheet :=
  {| title := t; tabColor := None; cells := ∅ |}.

(** [wb.sheetnames] *)
Definition sheetnames (wb : workbook) : list string := map title wb.

(** [name in wb.sheetnames] *)
Definition has_sheet (name : string) (wb : workbook) : bool :=
  existsb (String.eqb name) (sheetnames wb).

(** [wb[name]]: the first sheet with that title. *)
Fixpoint get_sheet (name : string) (wb : workbook) : option worksheet :=
  match wb with
  | [] => None
  | ws :: wb' => if String.eqb name (title ws) then Some ws else get_sheet name wb'
  end.

(** The workbook after the sheet [wb[name]] was mutated by [f]. *)
Fixpoint update_sheet (name : string) (f : worksheet -> worksheet)
    (wb : workbook) : workbook :=
  match wb with
  | [] => []
  | ws :: wb' =>
      if String.eqb name (title ws) then f ws :: wb'
      else ws :: update_sheet name f wb'
  end.

(** [openpyxl.Workbook()]: one sheet, titled "Sheet". *)
Definition Workbook : workbook := [empty_sheet "Sheet"].

(** ** The file system *)

Record file := {
  contents : option workbook;   (* [None]: the file is not a workbook *)
  locked : bool }.              (* another program holds it open *)

Definition projects_dir : string := "projects".
Definition template_path : string := "Final PO Format.xlsx".

Record filesystem := {
  projects : option (list (string * file));   (* the entries of [projects_dir],
                                                 [None]: no such directory *)
  template : option file }.                   (* the file at [template_path] *)

(** [os.path.join(d, name)], kept as the pair. *)
Definition os_path_join (d name : string) : string * string := (d, name).

Fixpoint assoc (name : string) (l : list (string * file)) : option file :=
  match l with
  | [] => None
  | (n, f) :: l' => if String.eqb name n then Some f else assoc name l'
  end.

Fixpoint assoc_set (name : string) (f : file) (l : list (string * file))
    : list (string * file) :=
  match l with
  | [] => [(name, f)]
  | (n, g) :: l' =>
      if String.eqb name n then (n, f) :: l' else (n, g) :: assoc_set name f l'
  end.

(** The file [projects/name], when it exists. *)
Definition project_file (fs : filesystem) (name : string) : option file :=
  match projects fs with
  | Some l => assoc name l
  | None => None
  end.

(** [os.makedirs(projects_dir, exist_ok=True)] *)
Definition makedirs (fs : filesystem) : filesystem :=
  match projects fs with
  | Some _ => fs
  | None => {| projects := Some []; template := template fs |}
  end.

(** [openpyxl.load_workbook(path)] on an existing file. *)
Definition load_workbook (f : file) : exn + workbook :=
  match contents f with
  | Some wb => inr wb
  | None => inl InvalidFileException
  end.

(** [wb.save(projects/name)]: replaces the file, or creates it. *)
Definition save (wb : workbook) (name : string) (fs : filesystem)
    : exn + filesystem :=
  match projects fs with
  | None => inl FileNotFoundError
  | Some l =>
      match assoc name l with
      | Some f =>
          if locked f then inl PermissionError
          else inr {| projects := Some (assoc_set name {| contents := Some wb; locked := false |} l);
                      template := template fs |}
      | None =>
          inr {| projects := Some (assoc_set name {| contents := Some wb; locked := false |} l);
                 template := template fs |}
      end
  end.

(** ** The dictionaries the API returns *)

Record vendor_details := {
  vd_name : string;
  vd_address : value;
  vd_contact : value;
  vd_email : value }.

Inductive response :=
| Success (message : string)             (* {"success": True, "message": ...} *)
| Sheets (sheets : list string)          (* {"success": True, "sheets": ...} *)
| Details (details : vendor_details)     (* {"success": True, "details": ...} *)
| Failure (message : string)             (* {"success": False, "message": ...} *)
| FailureExn (e : exn).                  (* {"success": False, "message": ... str(e)} *)

Definition success (r : response) : bool :=
  match r with
  | Success _ | Sheets _ | Details _ => true
  | Failure _ | FailureExn _ => false
  end.

(** ** openpyxl's validations

    [openpyxl.styles.Font(...)], [Border(...)], [PatternFill(...)] and
    [Alignment(...)] validate their arguments and may raise; this code calls
    them on the attributes read from a template cell. [wb.create_sheet(name)]
    decides the title of the new sheet: it raises on a name with a character
    a title may not have, and it renames a title that is in use up to case.
    The library's verdicts are left open: every result below holds for any
    of them. *)
Class Openpyxl := {
  Font_init : Font -> exn + Font;
  Border_init : Border -> exn + Border;
  PatternFill_init : PatternFill -> exn + PatternFill;
  Alignment_init : Alignment -> exn + Alignment;
  (** the title of the sheet created in a workbook with these sheet names *)
  create_sheet_title : list string -> string -> exn + string }.

Definition set_font (f : Font) (st : style) : style :=
  {| font := f; border := border st; fill := fill st;
     number_format := number_format st; alignment := alignment st |}.
Definition set_border (b : Border) (st : style) : style :=
  {| font := font st; border := b; fill := fill st;
     number_format := number_format st; alignment := alignment st |}.
Definition set_fill (p : PatternFill) (st : style) : style :=
  {| font := font st; border := border st; fill := p;
     number_format := number_format st; alignment := alignment st |}.
Definition set_number_format (n : attr) (st : style) : style :=
  {| font := font st; border := border st; fill := fill st;
     number_format := n; alignment := alignment st |}.
Definition set_alignment (a : Alignment) (st : style) : style :=
  {| font := font st; border := border st; fill := fill st;
     number_format := number_format st; alignment := a |}.

(** [new_cell.<attribute> = ...] on the cell at [k]. *)
Definition restyle (k : coord) (g : style -> style) (ws : worksheet) : worksheet :=
  set_style k (g (cell_style (get_cell ws k))) ws.

(** ** [create_excel_file] (lines 37-69) *)

Definition file_name_of (safe_name : string) : string := safe_name +:+ ".xlsx".

(** [file_path], line 54. *)
Definition file_path_of (project_name : string) : string * string :=
  os_path_join projects_dir (file_name_of (safe_project_name project_name)).

(** [workbook = Workbook(); sheet = workbook.active; sheet.title = "Sheet1"] *)
Definition initial_workbook : workbook :=
  match Workbook with
  | sheet :: rest => set_title "Sheet1" sheet :: rest
  | [] => []
  end.

Definition create_excel_file (project_name : string) (fs : filesystem)
    : filesystem * response :=
  let safe := safe_project_name project_name in
  let fs1 := makedirs fs in
  let file_name := file_name_of safe in
  match save initial_workbook file_name fs1 with
  | inr fs2 =>
      (fs2, Success ("Project '" +:+ file_name +:+ "' created successfully in '"
                     +:+ projects_dir +:+ "' folder!"))
  | inl e => (fs1, FailureExn e)
  end.

(** ** [get_po_sheets] (lines 106-139) *)

Definition project_not_found (project_name : string) : string :=
  "Project '" +:+ project_name +:+ "' not found.".

Definition get_po_sheets (project_name : string) (fs : filesystem) : response :=
  match project_file fs project_name with
  | None => Failure (project_not_found project_name)
  | Some f =>
      match load_workbook f with
      | inl e => FailureExn e
      | inr wb => Sheets (sort_by get_sheet_number (sheetnames wb))
      end
  end.

(** ** [create_po] (lines 141-222) *)

(** [ws.max_row] and [ws.max_column], 0 for a sheet without cells. *)
Definition max_row (ws : worksheet) : nat :=
  list_max (map (fun kc => Pos.to_nat (fst (fst kc))) (map_to_list (cells ws))).

Definition max_column (ws : worksheet) : nat :=
  list_max (map (fun kc => Pos.to_nat (snd (fst kc))) (map_to_list (cells ws))).

(** The indices 1..n. *)
Definition indices (n : nat) : list positive := map Pos.of_nat (seq 1 n).

(** [ws.iter_rows()]: every cell of the rectangle from A1 to the last used
    row and column, row by row. *)
Definition iter_rows (ws : worksheet) : list (list (coord * cell)) :=
  map (fun r => map (fun c => ((r, c), get_cell ws (r, c)))
                    (indices (max_column ws)))
      (indices (max_row ws)).

Section CreatePo.
Context `{Openpyxl}.

(** The body of the inner [try]: the five assignments in order; the first
    constructor that raises ends it, and the assignments made before it
    stay. Returns the sheet and the exception caught, if any. *)
Definition copy_style (src : cell) (k : coord) (ws : worksheet)
    : worksheet * option exn :=
  let st := cell_style src in
  match Font_init
          {| font_name := font_name (font st); font_size := font_size (font st);
             font_bold := font_bold (font st); font_italic := font_italic (font st);
             font_vertAlign := font_vertAlign (font st);
             font_underline := font_underline (font st);
             font_strike := font_strike (font st);
             font_color := font_color (font st) |} with
  | inl e => (ws, Some e)
  | inr f =>
  let ws := restyle k (set_font f) ws in
  match Border_init
          {| border_left := border_left (border st);
             border_right := border_right (border st);
             border_top := border_top (border st);
             border_bottom := border_bottom (border st) |} with
  | inl e => (ws, Some e)
  | inr b =>
  let ws := restyle k (set_border b) ws in
  match PatternFill_init
          {| fill_type := fill_type (fill st);
             start_color := start_color (fill st);
             end_color := end_color (fill st) |} with
  | inl e => (ws, Some e)
  | inr p =>
  let ws := restyle k (set_fill p) ws in
  let ws := restyle k (set_number_format (number_format st)) ws in
  match Alignment_init
          {| horizontal := horizontal (alignment st);
             vertical := vertical (alignment st);
             text_rotation := text_rotation (alignment st);
             wrap_text := wrap_text (alignment st);
             shrink_to_fit := shrink_to_fit (alignment st);
             indent := indent (alignment st) |} with
  | inl e => (ws, Some e)
  | inr a => (restyle k (set_alignment a) ws, None)
  end end end end.

(** One turn of the inner [for]: the new sheet and the warnings printed so
    far. *)
Definition copy_cell (st : worksheet * list exn) (kc : coord * cell)
    : worksheet * list exn :=
  let '(new_sheet, log) := st in
  let '(k, c) := kc in
  let new_sheet := set_value k (cell_value c) new_sheet in
  if has_style c then
    match copy_style c k new_sheet with
    | (ws, Some style_error) => (ws, log ++ [style_error])   (* print; continue *)
    | (ws, None) => (ws, log)
    end
  else (new_sheet, log).

Definition copy_rows (rows : list (list (coord * cell)))
    (st : worksheet * list exn) : worksheet * list exn :=
  fold_left (fun st row => fold_left copy_cell row st) rows st.

(** [project_wb] once the sheet [create_sheet] appended to it holds what the
    loop wrote. *)
Definition put_new_sheet (project_wb : workbook) (ws : worksheet) : workbook :=
  project_wb ++ [ws].

(** Returns the file system, the dictionary and the style warnings
    printed. *)
Definition create_po (project_name po_name : string) (fs : filesystem)
    : filesystem * response * list exn :=
  match project_file fs project_name with
  | None => (fs, Failure (project_not_found project_name), [])
  | Some pf =>
  match template fs with
  | None => (fs, Failure "PO template not found.", [])
  | Some tf =>
  match load_workbook pf with
  | inl e => (fs, FailureExn e, [])
  | inr project_wb =>
  match load_workbook tf with
  | inl e => (fs, FailureExn e, [])
  | inr template_wb =>
    if has_sheet po_name project_wb then
      (fs, Failure ("PO '" +:+ po_name +:+ "' already exists."), [])
    else
      (* new_sheet = project_wb.create_sheet(po_name) *)
      match create_sheet_title (sheetnames project_wb) po_name with
      | inl e => (fs, FailureExn e, [])
      | inr new_title =>
      (* template_sheet = template_wb.active: the first sheet; iterating
         over the [None] of a workbook without sheets raises *)
      match template_wb with
      | [] => (fs, FailureExn AttributeError, [])
      | template_sheet :: _ =>
          let '(new_sheet, log) :=
            copy_rows (iter_rows template_sheet) (empty_sheet new_title, []) in
          match save (put_new_sheet project_wb new_sheet) project_name fs with
          | inr fs' =>
              (fs', Success ("PO '" +:+ po_name +:+ "' created successfully."), log)
          | inl e => (fs, FailureExn e, log)
          end
      end end
  end end end end.
End CreatePo.

(** ** [delete_po] (lines 224-248) *)

Definition po_not_found (po_name : string) : string :=
  "PO '" +:+ po_name +:+ "' not found.".

Definition red : string := "FFFF0000".

Definition delete_po (project_name po_name : string) (fs : filesystem)
    : filesystem * response :=
  match project_file fs project_name with
  | None => (fs, Failure (project_not_found project_name))
  | Some f =>
  match load_workbook f with
  | inl e => (fs, FailureExn e)
  | inr wb =>
    if negb (has_sheet po_name wb) then (fs, Failure (po_not_found po_name))
    else
      let wb' := update_sheet po_name (set_tabColor red) wb in
      match save wb' project_name fs with
      | inr fs' => (fs', Success ("PO '" +:+ po_name +:+ "' marked as deleted."))
      | inl e => (fs, FailureExn e)
      end
  end end.

(** ** [save_po_data] (lines 357-401) *)

Record vendor_data := {
  name : value; address : value; contact : value; email : value }.

Record delivery_data := { date : value; instructions : value }.

Record item := {
  item_name : value; quantity : value; unit_price : value;
  description : value }.

(** The [po_data] dictionary, with all its keys present. *)
Record po_data := {
  vendor : vendor_data;
  delivery : delivery_data;
  items : list item;
  terms : value }.

Definition items_start_row : positive := 10.

(** The [for item in po_data["items"]] loop, from [row] on. *)
Fixpoint write_items (row : positive) (l : list item) (sheet : worksheet) : worksheet :=
  match l with
  | [] => sheet
  | it :: l' =>
      let sheet := set_value (row, col_A) (item_name it) sheet in
      let sheet := set_value (row, col_B) (quantity it) sheet in
      let sheet := set_value (row, col_C) (unit_price it) sheet in
      let sheet := set_value (row, col_D) (description it) sheet in
      write_items (row + 1)%positive l' sheet
  end.

Definition write_po_data (d : po_data) (sheet : worksheet) : worksheet :=
  let sheet := set_value B2 (name (vendor d)) sheet in
  let sheet := set_value B4 (address (vendor d)) sheet in
  let sheet := set_value B5 (contact (vendor d)) sheet in
  let sheet := set_value B6 (email (vendor d)) sheet in
  let sheet := set_value B3 (date (delivery d)) sheet in
  let sheet := set_value B7 (instructions (delivery d)) sheet in
  let sheet := write_items items_start_row (items d) sheet in
  set_value B8 (terms d) sheet.

Definition save_po_data (project_name po_name : string) (d : po_data)
    (fs : filesystem) : filesystem * response :=
  match project_file fs project_name with
  | None => (fs, Failure (project_not_found project_name))
  | Some f =>
  match load_workbook f with
  | inl e => (fs, FailureExn e)
  | inr wb =>
    if negb (has_sheet po_name wb) then (fs, Failure (po_not_found po_name))
    else
      let wb' := update_sheet po_name (write_po_data d) wb in
      match save wb' project_name fs with
      | inr fs' => (fs', Success "PO data saved successfully.")
      | inl e => (fs, FailureExn e)
      end
  end end.

(** ** [get_vendor_details] (lines 281-322) *)

(** [s.endswith(suffix)] *)
Definition endswith (suffix s : string) : bool :=
  startswith (String.rev suffix) (String.rev s).

(** Python truth of a cell value. *)
Definition truthy (v : value) : bool :=
  match v with
  | VNone => false
  | VStr s => negb (String.eqb s EmptyString)
  | VNum z => negb (z =? 0)%Z
  | VBool b => b
  | VDatetime _ => true
  | VTime t => true
  end.

(** [v or s] for the empty string [s]. *)
Definition or_empty (v : value) : value := if truthy v then v else VStr EmptyString.

(** [v == vendor_name] for a string [vendor_name]. *)
Definition value_is (v : value) (vendor_name : string) : bool :=
  match v with
  | VStr s => String.eqb s vendor_name
  | _ => false
  end.

(** [isinstance(v, datetime)], with the instant when it holds. *)
Definition as_datetime (v : value) : option Z :=
  match v with
  | VDatetime t => Some t
  | _ => None
  end.

(** The loop state: [latest_date] and the [vendor_details] dictionary. *)
Definition scan_state : Type := option Z * vendor_details.

Definition initial_details (vendor_name : string) : vendor_details :=
  {| vd_name := vendor_name; vd_address := VStr EmptyString; vd_contact := VStr EmptyString;
     vd_email := VStr EmptyString |}.

(** [latest_date is None or po_date > latest_date] *)
Definition is_later (po_date : Z) (latest_date : option Z) : bool :=
  match latest_date with
  | None => true
  | Some l => (l <? po_date)%Z
  end.

(** The body of [for sheet in workbook.sheetnames]; titles being unique in a
    workbook, [workbook[sheet]] is the sheet enumerated. *)
Definition scan_sheet (vendor_name : string) (st : scan_state)
    (sheet_obj : worksheet) : scan_state :=
  if startswith "PO" (title sheet_obj) then
    if value_is (cell_value (get_cell sheet_obj B2)) vendor_name then
      match as_datetime (cell_value (get_cell sheet_obj B3)) with
      | Some po_date =>
          if is_later po_date (fst st) then
            (Some po_date,
             {| vd_name := vd_name (snd st);
                vd_address := or_empty (cell_value (get_cell sheet_obj B4));
                vd_contact := or_empty (cell_value (get_cell sheet_obj B5));
                vd_email := or_empty (cell_value (get_cell sheet_obj B6)) |})
          else st
      | None => st
      end
    else st
  else st.

(** The body of [for file_name in os.listdir(projects_dir)]. *)
Fixpoint scan_files (vendor_name : string) (l : list (string * file))
    (st : scan_state) : exn + scan_state :=
  match l with
  | [] => inr st
  | (file_name, f) :: l' =>
      if endswith ".xlsx" file_name then
        match load_workbook f with
        | inl e => inl e
        | inr wb => scan_files vendor_name l' (fold_left (scan_sheet vendor_name) wb st)
        end
      else scan_files vendor_name l' st
  end.

Definition get_vendor_details (vendor_name : string) (fs : filesystem) : response :=
  match projects fs with
  | None => Details (initial_details vendor_name)
  | Some l =>
      match scan_files vendor_name l (None, initial_details vendor_name) with
      | inr st => Details (snd st)
      | inl e => FailureExn e
      end
  end.

(** ** [list_excel_files] (lines 71-81) *)

Definition list_excel_files (fs : filesystem) : list string :=
  match projects fs with
  | Some l => List.filter (endswith ".xlsx") (map fst l)
  | None => []
  end.

(** ** [open_excel_file] (lines 83-104) *)




(** ** The PO window of the page (lines 1557-1575, 1633-1656)

    Clicking a listed project shows its file name with the first ".xlsx"
    removed and lists its sheets under the file name; the "Add PO" and "Open
    Excel" buttons then pass the text shown. *)







(** ** [save_vendor_details] (lines 403-429) *)

(** What [json.load] returns and [json.dump] takes; a dictionary is its
    items in insertion order. *)
#[warnings="-register-all"]
Inductive json :=
| JNull
| JBool (b : bool)
| JNum (z : Z)
| JStr (s : string)
| JArr (l : list json)
| JObj (items : list (string * json)).

(** The file [vendors/vendor_details.json]: text that is no JSON, or the
    value it parses to. *)
Inductive vendor_file :=
| NotJson
| Json (j : json).

(** [d[k]], when the key is there. *)
Fixpoint dict_get (k : string) (d : list (string * json)) : option json :=
  match d with
  | [] => None
  | (k', v) :: d' => if String.eqb k k' then Some v else dict_get k d'
  end.

(** [d[k] = v]: the value is replaced where the key is, else the item is
    added at the end. *)
Fixpoint dict_set (k : string) (v : json) (d : list (string * json))
    : list (string * json) :=
  match d with
  | [] => [(k, v)]
  | (k', v') :: d' =>
      if String.eqb k k' then (k', v) :: d' else (k', v') :: dict_set k v d'
  end.

(** From the file, when there is one, to the file and the dictionary
    returned. A file that does not parse raises in [json.load] (a
    [ValueError]); a parsed value that is no dictionary raises on the item
    assignment (a [TypeError]); both before the file is opened for
    writing. *)
Definition save_vendor_details (vendor_name : string) (vendor_details : json)
    (vf : option vendor_file) : option vendor_file * response :=
  let saved := Success ("Vendor '" +:+ vendor_name +:+ "' details saved successfully.") in
  match vf with
  | None => (Some (Json (JObj (dict_set vendor_name vendor_details []))), saved)
  | Some NotJson => (vf, FailureExn ValueError)
  | Some (Json (JObj existing_vendors)) =>
      (Some (Json (JObj (dict_set vendor_name vendor_details existing_vendors))),
       saved)
  | Some (Json _) => (vf, FailureExn TypeError)
  end.

(** ** [get_vendors] and [get_items_for_vendor] (lines 250-279, 324-355) *)

(** A cell value as a number, when it is one: a bool is 0 or 1. *)
Definition number_of (v : value) : option Z :=
  match v with
  | VNum z => Some z
  | VBool b => Some (if b then 1 else 0)%Z
  | _ => None
  end.

(** [a == b] *)
Definition value_eqb (a b : value) : bool :=
  match a, b with
  | VNone, VNone => true
  | VStr x, VStr y => String.eqb x y
  | VDatetime x, VDatetime y => (x =? y)%Z
  | VTime x, VTime y => (x =? y)%Z
  | _, _ =>
      match number_of a, number_of b with
      | Some x, Some y => (x =? y)%Z
      | _, _ => false
      end
  end.

(** Whether [a < b] is defined: both texts, both numbers, both datetimes or
    both times; otherwise the comparison raises [TypeError]. *)
Definition orderable (a b : value) : bool :=
  match a, b with
  | VStr _, VStr _ => true
  | VDatetime _, VDatetime _ => true
  | VTime _, VTime _ => true
  | _, _ =>
      match number_of a, number_of b with
      | Some _, Some _ => true
      | _, _ => false
      end
  end.

(** [a <= b] where it is defined; texts compare by code points. *)
Definition value_leb (a b : value) : bool :=
  match a, b with
  | VStr x, VStr y => String.leb x y
  | VDatetime x, VDatetime y => (x <=? y)%Z
  | VTime x, VTime y => (x <=? y)%Z
  | _, _ =>
      match number_of a, number_of b with
      | Some x, Some y => (x <=? y)%Z
      | _, _ => false
      end
  end.

(** [s.add(v)] on a set kept as the list of its elements in the order they
    came in: an element equal to [v] keeps [v] out. *)
Definition set_add (v : value) (s : list value) : list value :=
  if existsb (value_eqb v) s then s else s ++ [v].

Section SortLeb.
Context {A : Type} (leb : A -> A -> bool).

Fixpoint insert_leb (x : A) (l : list A) : list A :=
  match l with
  | [] => [x]
  | y :: l' => if leb x y then x :: l else y :: insert_leb x l'
  end.

Fixpoint sort_leb (l : list A) : list A :=
  match l with
  | [] => []
  | x :: l' => insert_leb x (sort_leb l')
  end.
End SortLeb.

(** [sorted(list(s))] for a set [s] of cell values. No comparison is made on
    fewer than two elements; on more, the elements come out in ascending
    order, and since neighbours in that order have been compared with each
    other, two elements that cannot be ordered make the sort raise. *)
Definition sorted (s : list value) : exn + list value :=
  match s with
  | [] | [_] => inr s
  | x :: _ =>
      if forallb (orderable x) s then inr (sort_leb value_leb s)
      else inl TypeError
  end.

(** The dictionaries of the two listings. *)
Inductive listing :=
| Vendors (vendors : list value)    (* {"success": True, "vendors": ...} *)
| Items (items : list value)        (* {"success": True, "items": ...} *)
| ListingFailure (e : exn).         (* {"success": False, "message": str(e)} *)

(** The loops over the directory and over the sheets of each ".xlsx" file,
    with the body [visit] for one sheet. *)
Fixpoint visit_sheets (visit : list value -> worksheet -> list value)
    (l : list (string * file)) (found : list value) : exn + list value :=
  match l with
  | [] => inr found
  | (file_name, f) :: l' =>
      if endswith ".xlsx" file_name then
        match load_workbook f with
        | inl e => inl e
        | inr wb => visit_sheets visit l' (fold_left visit wb found)
        end
      else visit_sheets visit l' found
  end.

(** The body of the sheet loop of [get_vendors]. *)
Definition add_vendor (vendors : list value) (sheet_obj : worksheet) : list value :=
  if startswith "PO" (title sheet_obj) then
    let vendor := cell_value (get_cell sheet_obj B2) in
    if truthy vendor then set_add vendor vendors else vendors
  else vendors.

Definition get_vendors (fs : filesystem) : listing :=
  match projects fs with
  | None => Vendors []
  | Some l =>
      match visit_sheets add_vendor l [] with
      | inl e => ListingFailure e
      | inr vendors =>
          match sorted vendors with
          | inr out => Vendors out
          | inl e => ListingFailure e
          end
      end
  end.

(** [range(10, sheet_obj.max_row + 1)] *)
Definition item_rows (sheet_obj : worksheet) : list positive :=
  map Pos.of_nat (seq 10 (max_row sheet_obj + 1 - 10)).

(** The body of the row loop of [get_items_for_vendor]. *)
Definition add_item (sheet_obj : worksheet) (items : list value) (row : positive)
    : list value :=
  let item := cell_value (get_cell sheet_obj (row, col_A)) in
  if truthy item then set_add item items else items.

(** The body of its sheet loop. *)
Definition add_items (vendor_name : string) (items : list value)
    (sheet_obj : worksheet) : list value :=
  if startswith "PO" (title sheet_obj) then
    if value_is (cell_value (get_cell sheet_obj B2)) vendor_name then
      fold_left (add_item sheet_obj) (item_rows sheet_obj) items
    else items
  else items.

Definition get_items_for_vendor (vendor_name : string) (fs : filesystem) : listing :=
  match projects fs with
  | None => Items []
  | Some l =>
      match visit_sheets (add_items vendor_name) l [] with
      | inl e => ListingFailure e
      | inr items =>
          match sorted items with
          | inr out => Items out
          | inl e => ListingFailure e
          end
      end
  end.

(** * The vocabulary of the properties

    Definitions that state the properties below: the claims in their own
    words, the quantities they speak of, and small concrete file systems. *)

(** The claim as worded: the base name is the input with exactly the safe
    characters kept, or the fallback when none is. *)
Definition keeps_exactly_safe_chars (project_name : string) : Prop :=
  safe_project_name project_name =
  match str_filter safe_char project_name with
  | EmptyString => fallback_name
  | kept => kept
  end.

Definition number_eqb (a b : sheet_number) : bool :=
  match a, b with
  | Int x, Int y => (x =? y)%N
  | FloatInf, FloatInf => true
  | _, _ => false
  end.

Section SortVocabulary.
Context {A : Type} (key : A -> sheet_number).

(** [a] may stand before [b]. *)
Definition key_le (a b : A) : Prop := number_le (key a) (key b) = true.

(** The elements whose key is [k], in their order. *)
Definition with_key (k : sheet_number) (l : list A) : list A :=
  List.filter (fun x => number_eqb (key x) k) l.

End SortVocabulary.

(** The characters of a name that [str.isdigit] accepts. *)
Definition digit_chars (sheet_name : string) : list ascii :=
  List.filter isdigit (chars sheet_name).

(** The integer a run of decimal digits denotes. *)
Definition decimal_number (ds : list ascii) : N :=
  fold_left (fun acc c => (10 * acc + (ord c - 48))%N) ds 0%N.

(** The key in words: the integer formed from the digit characters; infinity
    when there is none, or when one of them is no decimal digit. *)
Definition digits_key (sheet_name : string) : sheet_number :=
  match digit_chars sheet_name with
  | [] => FloatInf
  | ds => if forallb isdecimal ds then Int (decimal_number ds) else FloatInf
  end.

(** The key of the claim as worded: the integer formed from the digits
    0..9 of the name, infinity only when it has none. *)
Definition worded_key (sheet_name : string) : sheet_number :=
  match List.filter isdecimal (chars sheet_name) with
  | [] => FloatInf
  | ds => Int (decimal_number ds)
  end.

(** The file a successful creation leaves: one empty sheet "Sheet1". *)
Definition fresh_project_file : file :=
  {| contents := Some [{| title := "Sheet1"; tabColor := None; cells := ∅ |}];
     locked := false |}.

(** The row [i] rows below [row]. *)
Definition row_after (row : positive) (i : nat) : positive :=
  Nat.iter i Pos.succ row.

(** The cells [save_po_data] is said to write: the seven fixed ones and, for
    [n] items, rows 10 to 10+n-1 of columns A to D. *)
Definition fixed_cells : list coord := [B2; B4; B5; B6; B3; B7; B8].

Definition is_item_cell (n : nat) (k : coord) : bool :=
  ((10 <=? Pos.to_nat (fst k)) && (Pos.to_nat (fst k) <? 10 + n)
   && (Pos.to_nat (snd k) <=? 4))%nat.

Section CopyVocabulary.
Context `{Openpyxl}.

(** The exception, if any, that copying the style of [src] raises. *)
Definition style_error (src : cell) : option exn :=
  snd (copy_style src (1%positive, 1%positive) (empty_sheet EmptyString)).

(** The warning one cell adds to the log. *)
Definition cell_warning (kc : coord * cell) : option exn :=
  if has_style (snd kc) then style_error (snd kc) else None.

End CopyVocabulary.

Section CloneVocabulary.
Context `{Openpyxl}.

(** The cell the copy loop leaves in the new sheet for the template cell
    [src]: the cell of a fresh sheet after one turn of the loop. *)
Definition copied_cell (src : cell) : cell :=
  get_cell (fst (copy_cell (empty_sheet EmptyString, [])
                   ((1%positive, 1%positive), src)))
    (1%positive, 1%positive).

End CloneVocabulary.

(** The sheets the scan reads, in scan order: those of the readable [.xlsx]
    files of the directory. *)
Definition scanned_sheets (l : list (string * file)) : list worksheet :=
  flat_map (fun nf => if endswith ".xlsx" (fst nf)
                      then default [] (contents (snd nf)) else []) l.

(** A sheet counts for the vendor when its title starts with "PO", B2 is the
    vendor name and B3 holds a datetime; it then comes with that instant. *)
Definition dated_match (vendor_name : string) (ws : worksheet)
    : option (Z * worksheet) :=
  if startswith "PO" (title ws)
     && value_is (cell_value (get_cell ws B2)) vendor_name
  then match cell_value (get_cell ws B3) with
       | VDatetime t => Some (t, ws)
       | _ => None
       end
  else None.

Definition dated_matches (vendor_name : string) (l : list (string * file))
    : list (Z * worksheet) :=
  omap (dated_match vendor_name) (scanned_sheets l).

(** The details read off one sheet. *)
Definition details_on (vendor_name : string) (ws : worksheet) : vendor_details :=
  {| vd_name := vendor_name;
     vd_address := or_empty (cell_value (get_cell ws B4));
     vd_contact := or_empty (cell_value (get_cell ws B5));
     vd_email := or_empty (cell_value (get_cell ws B6)) |}.

(** One dated match against the loop state. *)
Definition take_later (vendor_name : string) (st : scan_state)
    (m : Z * worksheet) : scan_state :=
  if is_later (fst m) (fst st)
  then (Some (fst m), details_on vendor_name (snd m))
  else st.

(** ** Concrete file systems *)

(** A name with the superscript two between "A" and "3". *)
Definition A_sup2_3 : string := String "A" (String "178" (String "3" EmptyString)).

Definition listing_fs : filesystem :=
  {| projects :=
       Some [("p.xlsx",
              {| contents := Some [empty_sheet "Misc"; empty_sheet A_sup2_3];
                 locked := false |})];
     template := None |}.

Definition po_listing_fs : filesystem :=
  {| projects :=
       Some [("p.xlsx",
              {| contents := Some [empty_sheet "PO10"; empty_sheet "PO2";
                                   empty_sheet "Misc"];
                 locked := false |})];
     template := None |}.

(** A library that accepts everything, and one where [PatternFill] rejects
    its arguments; both give a new sheet the title asked for. *)
Definition accepting_styles : Openpyxl :=
  {| Font_init := inr; Border_init := inr; PatternFill_init := inr;
     Alignment_init := inr;
     create_sheet_title := fun _ t => inr t |}.

Definition rejecting_fills : Openpyxl :=
  {| Font_init := inr; Border_init := inr;
     PatternFill_init := fun _ => inl ValueError;
     Alignment_init := inr;
     create_sheet_title := fun _ t => inr t |}.

Definition bold : style :=
  set_font (Build_Font (Some "Arial") (Some "11") (Some "True") None None None
              None None) default_style.

Definition template_sheet_ex : worksheet :=
  {| title := "Template"; tabColor := None;
     cells := {[ (1%positive, 1%positive) :=
                   {| cell_value := VStr "PURCHASE ORDER"; cell_style := bold |};
                 (2%positive, 1%positive) :=
                   {| cell_value := VStr "Vendor"; cell_style := default_style |};
                 (3%positive, 2%positive) :=
                   {| cell_value := VNum 7; cell_style := bold |} ]} |}.

Definition po_sheet_ex (t vendor_name : string) (d : value) (addr : string)
    : worksheet :=
  {| title := t; tabColor := None;
     cells := {[ B2 := {| cell_value := VStr vendor_name; cell_style := default_style |};
                 B3 := {| cell_value := d; cell_style := default_style |};
                 B4 := {| cell_value := VStr addr; cell_style := default_style |} ]} |}.

Definition acme_wb : workbook :=
  [ empty_sheet "Sheet1";
    po_sheet_ex "PO1" "Bolt Ltd" (VDatetime 200) "2 New Road";
    po_sheet_ex "PO2" "Bolt Ltd" (VStr "2024-05-01") "3 Text Lane" ].

Definition beta_wb : workbook :=
  [ po_sheet_ex "PO7" "Bolt Ltd" (VDatetime 100) "1 Old Street";
    po_sheet_ex "Notes" "Bolt Ltd" (VDatetime 900) "9 Not A PO" ].

Definition acme_file : file := {| contents := Some acme_wb; locked := false |}.
Definition beta_file : file := {| contents := Some beta_wb; locked := false |}.
Definition template_file_ex : file :=
  {| contents := Some [template_sheet_ex]; locked := false |}.

Definition fs_ex : filesystem :=
  {| projects := Some [("Acme.xlsx", acme_file); ("Beta.xlsx", beta_file);
                       ("readme.txt", {| contents := None; locked := false |})];
     template := Some template_file_ex |}.

Definition item_ex (n : string) (q : Z) : item :=
  {| item_name := VStr n; quantity := VNum q; unit_price := VNum 5;
     description := VStr EmptyString |}.

Definition order_ex (l : list item) : po_data :=
  {| vendor := {| name := VStr "Bolt Ltd"; address := VStr "2 New Road";
                  contact := VStr "555"; email := VStr "b@bolt.example" |};
     delivery := {| date := VStr "2024-06-01"; instructions := VStr "dock 2" |};
     items := l;
     terms := VStr "30 days" |}.

(** What a later reader finds in a cell of a sheet of a project file. *)
Definition read_cell (fs : filesystem) (project_name po_name : string)
    (k : coord) : option value :=
  match project_file fs project_name with
  | Some {| contents := Some wb |} =>
      match get_sheet po_name wb with
      | Some ws => Some (cell_value (get_cell ws k))
      | None => None
      end
  | _ => None
  end.

(** A project file held open by another program, a directory with an
    unreadable ".xlsx" entry, one with workbooks only, and one where a
    vendor cell holds a number. *)
Definition locked_fs : filesystem :=
  {| projects := Some [("Acme.xlsx", {| contents := Some acme_wb; locked := true |})];
     template := Some template_file_ex |}.

Definition broken_fs : filesystem :=
  {| projects := Some [("Acme.xlsx", acme_file);
                       ("Bad.xlsx", {| contents := None; locked := false |})];
     template := Some template_file_ex |}.

Definition gamma_wb : workbook :=
  [ po_sheet_ex "PO4" "Nut Co" (VDatetime 300) "4 Mill Lane";
    po_sheet_ex "PO5" "Bolt Ltd" (VDatetime 50) "1 Old Street" ].

Definition workbooks_fs : filesystem :=
  {| projects := Some [("Gamma.xlsx", {| contents := Some gamma_wb; locked := false |});
                       ("Acme.xlsx", acme_file)];
     template := Some template_file_ex |}.

Definition numbered_vendor_sheet : worksheet :=
  {| title := "PO6"; tabColor := None;
     cells := {[ B2 := {| cell_value := VNum 42; cell_style := default_style |} ]} |}.

Definition mixed_fs : filesystem :=
  {| projects := Some [("Acme.xlsx", acme_file);
                       ("Delta.xlsx",
                        {| contents := Some [numbered_vendor_sheet]; locked := false |})];
     template := None |}.


(** Details as the page would send them, and a vendor file with one
    vendor. *)
Definition details_ex (addr : string) : json :=
  JObj [("name", JStr "Bolt Ltd"); ("address", JStr addr)].

Definition vendor_file_ex : option vendor_file :=
  Some (Json (JObj [("Nut Co", details_ex "4 Mill Lane")])).

(** * Properties *)

(** ** Strings *)

Lemma append_cons (c : ascii) (a b : string) :
  String c a +:+ b = String c (a +:+ b).
Proof. reflexivity. Qed.

Lemma append_nil (b : string) : EmptyString +:+ b = b.
Proof. reflexivity. Qed.

Lemma chars_app (a b : string) : chars (a +:+ b) = chars a ++ chars b.
Proof.
  induction a as [|c a IH]; [reflexivity |].
  rewrite append_cons. simpl. now rewrite IH.
Qed.

Lemma chars_str_filter (p : ascii -> bool) (s : string) :
  chars (str_filter p s) = List.filter p (chars s).
Proof.
  induction s as [|c s IH]; simpl; [reflexivity |].
  destruct (p c); simpl; now rewrite IH.
Qed.

Lemma str_filter_all (p : ascii -> bool) (s : string) :
  Forall (fun c => p c = true) (chars (str_filter p s)).
Proof.
  induction s as [|c s IH]; simpl; [constructor |].
  destruct (p c) eqn:E; simpl; [constructor; assumption | assumption].
Qed.

Lemma all_space_is_spaces (s : string) :
  Forall (fun c => c = " "%char) (chars s) -> s = spaces (String.length s).
Proof.
  induction s as [|c s IH]; simpl; intros Hall; [reflexivity |].
  inversion Hall as [|? ? Hc Hs]; subst. now rewrite <- IH.
Qed.

(** [lstrip] removes a run of whitespace and stops at a character that is
    none. *)
Lemma lstrip_split (s : string) :
  exists pre,
    s = pre +:+ lstrip s
    /\ Forall (fun c => isspace c = true) (chars pre)
    /\ (forall c, first_char (lstrip s) = Some c -> isspace c = false).
Proof.
  induction s as [|c s (pre & Heq & Hpre & Hfst)]; simpl.
  - exists EmptyString. repeat split; [constructor | discriminate].
  - destruct (isspace c) eqn:E.
    + exists (String c pre). rewrite append_cons, <- Heq. simpl.
      repeat split; [constructor; assumption | assumption].
    + exists EmptyString. repeat split; [constructor |].
      intros d Hd. cbn in Hd. now inversion Hd; subst.
Qed.

Lemma rstrip_split (s : string) :
  exists post,
    s = rstrip s +:+ post
    /\ Forall (fun c => isspace c = true) (chars post)
    /\ (forall c, last_char (rstrip s) = Some c -> isspace c = false).
Proof.
  induction s as [|c s (post & Heq & Hpost & Hlast)]; simpl.
  - exists EmptyString. repeat split; [constructor | discriminate].
  - destruct (rstrip s) as [|d r] eqn:R.
    + destruct (isspace c) eqn:E.
      * exists (String c post). rewrite !append_nil in *. subst post.
        repeat split; [constructor; assumption | discriminate].
      * exists post. rewrite append_nil in Heq. subst post.
        rewrite !append_cons, append_nil.
        repeat split; [assumption |].
        intros x Hx. cbn in Hx. now inversion Hx; subst.
    + exists post. rewrite !append_cons in *. rewrite <- Heq.
      repeat split; [assumption |].
      intros x Hx. apply Hlast.
      unfold last_char in *. simpl in *. destruct (chars r); exact Hx.
Qed.

(** [rstrip] keeps a first character that is no whitespace. *)
Lemma rstrip_first (s : string) :
  (forall c, first_char s = Some c -> isspace c = false) ->
  forall c, first_char (rstrip s) = Some c -> isspace c = false.
Proof.
  destruct s as [|a s]; simpl; intros Hs c Hc; [discriminate |].
  specialize (Hs a eq_refl).
  destruct (rstrip s); [rewrite Hs in Hc |]; cbn in Hc; now inversion Hc; subst.
Qed.

(** What [strip] does, said without its definition. *)
Lemma strip_split (s : string) :
  exists pre post,
    s = pre +:+ strip s +:+ post
    /\ Forall (fun c => isspace c = true) (chars pre)
    /\ Forall (fun c => isspace c = true) (chars post)
    /\ (forall c, first_char (strip s) = Some c -> isspace c = false)
    /\ (forall c, last_char (strip s) = Some c -> isspace c = false).
Proof.
  destruct (lstrip_split s) as (pre & Hs & Hpre & Hfst).
  destruct (rstrip_split (lstrip s)) as (post & Hl & Hpost & Hlast).
  exists pre, post. unfold strip. rewrite <- Hl.
  repeat split; try assumption. now apply rstrip_first.
Qed.

(** Among the characters the filter keeps, the space is the only
    whitespace. *)
Lemma safe_space (c : ascii) :
  safe_char c = true -> isspace c = true -> c = " "%char.
Proof.
  destruct c as [[] [] [] [] [] [] [] []]; vm_compute; congruence.
Qed.

Lemma safe_spaces_only (s : string) :
  Forall (fun c => safe_char c = true) (chars s) ->
  Forall (fun c => isspace c = true) (chars s) ->
  s = spaces (String.length s).
Proof.
  intros Hsafe Hsp. apply all_space_is_spaces.
  rewrite Forall_forall in *. intros c Hc. apply safe_space; auto.
Qed.

Lemma lstrip_blank (s : string) :
  Forall (fun c => isspace c = true) (chars s) -> lstrip s = EmptyString.
Proof.
  induction s as [|c s IH]; simpl; intros Hall; [reflexivity |].
  inversion Hall as [|? ? Hc Hs]; subst. rewrite Hc. auto.
Qed.

Lemma strip_blank (s : string) :
  Forall (fun c => isspace c = true) (chars s) -> strip s = EmptyString.
Proof. intros Hall. unfold strip. now rewrite lstrip_blank. Qed.

Lemma Forall_list_filter {A} (P : A -> Prop) (p : A -> bool) (l : list A) :
  Forall P l -> Forall P (List.filter p l).
Proof.
  rewrite !List.Forall_forall. intros Hl x Hx.
  apply Hl. apply List.filter_In in Hx. tauto.
Qed.

Lemma not_space_char (o : option ascii) :
  (forall c, o = Some c -> isspace c = false) -> o <> Some " "%char.
Proof. intros Ho E. specialize (Ho _ E). discriminate. Qed.

(** ** The sanitised project name *)

(** C3, as stated, fails: a leading space is a safe character, yet the base
    name of [" a"] is ["a"]. *)
Lemma safe_name_drops_outer_space :
  safe_project_name " a" = "a"
  /\ str_filter safe_char " a" = " a"
  /\ ~ keeps_exactly_safe_chars " a".
Proof. repeat split. vm_compute. discriminate. Qed.

(** C3, amended: the filter keeps exactly the characters that are
    alphanumeric, space, period or underscore, in their order; the base name
    is what is left of that once the spaces at both ends are removed, and the
    fixed fallback name when nothing is left. *)
Theorem safe_name_is_stripped_filter (project_name : string) :
  let kept := str_filter safe_char project_name in
  chars kept = List.filter safe_char (chars project_name)
  /\ exists (l r : nat) (core : string),
       kept = spaces l +:+ core +:+ spaces r
       /\ first_char core <> Some " "%char
       /\ last_char core <> Some " "%char
       /\ safe_project_name project_name =
          match core with
          | EmptyString => "untitled_project"
          | _ => core
          end.
Proof.
  intros kept. split; [apply chars_str_filter |].
  destruct (strip_split kept) as (pre & post & Heq & Hpre & Hpost & Hfst & Hlast).
  pose proof (str_filter_all safe_char project_name) as Hsafe.
  fold kept in Hsafe. rewrite Heq, !chars_app in Hsafe.
  apply Forall_app in Hsafe as [Hs1 Hs2]. apply Forall_app in Hs2 as [_ Hs3].
  exists (String.length pre), (String.length post), (strip kept).
  rewrite <- (safe_spaces_only pre Hs1 Hpre), <- (safe_spaces_only post Hs3 Hpost).
  split; [exact Heq |].
  split; [now apply not_space_char |].
  split; [now apply not_space_char |].
  reflexivity.
Qed.

(** C10: a name whose characters are all whitespace, or whose safe characters
    are all spaces, gets the fallback name; so the base name is never empty
    and neither starts nor ends with a space. *)
Theorem base_name_never_blank (project_name : string) :
  let base := safe_project_name project_name in
  (Forall (fun c => isspace c = true) (chars project_name)
     -> base = "untitled_project")
  /\ (Forall (fun c => c = " "%char) (chars (str_filter safe_char project_name))
     -> base = "untitled_project")
  /\ base <> EmptyString
  /\ first_char base <> Some " "%char
  /\ last_char base <> Some " "%char.
Proof.
  intros base. subst base. unfold safe_project_name.
  split; [| split].
  - intros Hall. rewrite strip_blank; [reflexivity |].
    rewrite chars_str_filter. now apply Forall_list_filter.
  - intros Hall. rewrite strip_blank; [reflexivity |].
    eapply List.Forall_impl; [| exact Hall]. intros c ->. reflexivity.
  - destruct (strip_split (str_filter safe_char project_name))
      as (_ & _ & _ & _ & _ & Hfst & Hlast).
    destruct (strip (str_filter safe_char project_name)) as [|c s].
    + split; [| split]; vm_compute; discriminate.
    + split; [discriminate |]. split; now apply not_space_char.
Qed.

(** A run of spaces takes the fallback name. *)
Lemma base_name_of_blank_input :
  safe_project_name "   " = "untitled_project"
  /\ safe_project_name " a b " = "a b".
Proof.
  split; [| reflexivity].
  apply (proj1 (proj2 (base_name_never_blank "   "))).
  repeat constructor.
Defined.

(** ** The stable sort *)

Lemma number_eqb_eq (a b : sheet_number) : number_eqb a b = true <-> a = b.
Proof.
  destruct a, b; simpl; try (split; congruence).
  rewrite N.eqb_eq. split; congruence.
Qed.

Lemma number_le_total (a b : sheet_number) :
  number_le a b = false -> number_le b a = true.
Proof.
  destruct a, b; simpl; try congruence.
  rewrite N.leb_gt, N.leb_le. lia.
Qed.

Lemma number_le_trans (a b c : sheet_number) :
  number_le a b = true -> number_le b c = true -> number_le a c = true.
Proof.
  destruct a, b, c; simpl; try congruence.
  rewrite !N.leb_le. lia.
Qed.

Lemma number_le_false_neq (a b : sheet_number) :
  number_le a b = false -> number_eqb b a = false.
Proof.
  destruct a, b; simpl; try congruence.
  rewrite N.leb_gt, N.eqb_neq. lia.
Qed.

Section SortFacts.
Context {A : Type} (key : A -> sheet_number).

Lemma insert_by_perm (x : A) (l : list A) :
  Permutation (x :: l) (insert_by key x l).
Proof.
  induction l as [|y l IH]; simpl; [reflexivity |].
  destruct (number_le (key x) (key y)); [reflexivity |].
  rewrite perm_swap. now apply perm_skip.
Qed.

Lemma sort_by_perm (l : list A) : Permutation l (sort_by key l).
Proof.
  induction l as [|x l IH]; simpl; [reflexivity |].
  rewrite <- insert_by_perm. now apply perm_skip.
Qed.

Lemma insert_by_sorted (x : A) (l : list A) :
  StronglySorted (key_le key) l -> StronglySorted (key_le key) (insert_by key x l).
Proof.
  induction 1 as [|y l Hs IH Hy]; simpl.
  - repeat constructor.
  - destruct (number_le (key x) (key y)) eqn:E.
    + constructor; [now constructor |].
      constructor; [exact E |].
      eapply List.Forall_impl; [| exact Hy].
      intros z Hz. unfold key_le in *. eapply number_le_trans; eassumption.
    + constructor; [exact IH |].
      apply (Permutation_Forall (insert_by_perm x l)).
      constructor; [| exact Hy].
      now apply number_le_total.
Qed.

Lemma sort_by_sorted (l : list A) : StronglySorted (key_le key) (sort_by key l).
Proof.
  induction l as [|x l IH]; simpl; [constructor | now apply insert_by_sorted].
Qed.

Lemma insert_by_with_key (k : sheet_number) (x : A) (l : list A) :
  with_key key k (insert_by key x l) = with_key key k (x :: l).
Proof.
  induction l as [|y l IH]; [reflexivity |].
  simpl insert_by. destruct (number_le (key x) (key y)) eqn:E; [reflexivity |].
  apply number_le_false_neq in E.
  unfold with_key in *. simpl in *. rewrite IH.
  destruct (number_eqb (key x) k) eqn:Ex; [| reflexivity].
  apply number_eqb_eq in Ex. subst k. now rewrite E.
Qed.

(** Stability: elements of equal key keep their order. *)
Lemma sort_by_stable (k : sheet_number) (l : list A) :
  with_key key k (sort_by key l) = with_key key k l.
Proof.
  induction l as [|x l IH]; [reflexivity |].
  simpl sort_by. rewrite insert_by_with_key.
  unfold with_key in *. simpl. now rewrite IH.
Qed.

End SortFacts.

(** ** The sheet listing *)

Lemma decimal_value_fold (s : string) (acc : N) :
  decimal_value acc s =
  if forallb isdecimal (chars s)
  then Some (fold_left (fun a c => (10 * a + (ord c - 48))%N) (chars s) acc)
  else None.
Proof.
  revert acc. induction s as [|c s IH]; intros acc; simpl; [reflexivity |].
  destruct (isdecimal c); simpl; [apply IH | reflexivity].
Qed.

(** The key function of the source computes the key in words. *)
Lemma get_sheet_number_digits_key (sheet_name : string) :
  get_sheet_number sheet_name = digits_key sheet_name.
Proof.
  unfold get_sheet_number, digits_key, digit_chars, int.
  rewrite <- chars_str_filter.
  destruct (str_filter isdigit sheet_name) as [|c s] eqn:E; [reflexivity |].
  rewrite decimal_value_fold. cbn [chars list_ascii_of_string].
  fold (chars s). unfold decimal_number.
  destruct (forallb isdecimal (c :: chars s)); reflexivity.
Qed.

Lemma sort_by_ext {A} (f g : A -> sheet_number) (l : list A) :
  (forall x, f x = g x) -> sort_by f l = sort_by g l.
Proof.
  intros Hfg. induction l as [|x l IH]; simpl; [reflexivity |].
  rewrite IH. generalize (sort_by g l) as m.
  induction m as [|y m IHm]; simpl; [reflexivity |].
  now rewrite !Hfg, IHm.
Qed.

(** C1, as stated, fails: "Misc" has no digit and "A²3" has the digit 3, yet
    the listing keeps "Misc" first, both names being keyed by infinity. *)
Lemma listing_keeps_digitless_name_first :
  get_po_sheets "p.xlsx" listing_fs = Sheets ["Misc"; A_sup2_3]
  /\ digit_chars "Misc" = []
  /\ worded_key "Misc" = FloatInf
  /\ worded_key A_sup2_3 = Int 3
  /\ get_sheet_number A_sup2_3 = FloatInf
  /\ ~ StronglySorted (key_le worded_key) ["Misc"; A_sup2_3].
Proof.
  repeat (split; [reflexivity |]).
  intros Hs. inversion Hs as [|? ? _ Hall]; subst.
  inversion Hall as [|? ? Hle _]; subst.
  vm_compute in Hle. discriminate.
Qed.

(** C1, amended: the listing is the sheet names in a stable ascending order
    of the integer formed from the characters of each name that
    [str.isdigit] accepts; a name with no such character, or with one that is
    no decimal digit (a superscript digit), is keyed by infinity and so comes
    last. Sheets "PO10", "PO2", "Misc" are listed as "PO2", "PO10",
    "Misc". *)
Theorem get_po_sheets_sorted (fs : filesystem) (project_name : string)
    (f : file) (wb : workbook) :
  project_file fs project_name = Some f ->
  contents f = Some wb ->
  exists out,
    get_po_sheets project_name fs = Sheets out
    /\ Permutation (sheetnames wb) out
    /\ StronglySorted (key_le digits_key) out
    /\ (forall k, with_key digits_key k out = with_key digits_key k (sheetnames wb))
    /\ (sheetnames wb = ["PO10"; "PO2"; "Misc"] -> out = ["PO2"; "PO10"; "Misc"]).
Proof.
  intros Hf Hwb. exists (sort_by digits_key (sheetnames wb)).
  split.
  - unfold get_po_sheets, load_workbook. rewrite Hf, Hwb.
    f_equal. apply sort_by_ext, get_sheet_number_digits_key.
  - split; [apply sort_by_perm |].
    split; [apply sort_by_sorted |].
    split; [intros k; apply sort_by_stable |].
    intros ->. reflexivity.
Qed.

Lemma get_po_sheets_sorted_PO :
  get_po_sheets "p.xlsx" po_listing_fs = Sheets ["PO2"; "PO10"; "Misc"].
Proof.
  destruct (get_po_sheets_sorted po_listing_fs "p.xlsx"
              {| contents := Some [empty_sheet "PO10"; empty_sheet "PO2";
                                   empty_sheet "Misc"];
                 locked := false |}
              [empty_sheet "PO10"; empty_sheet "PO2"; empty_sheet "Misc"]
              eq_refl eq_refl) as (out & Hout & _ & _ & _ & Hex).
  rewrite Hout, (Hex eq_refl). reflexivity.
Defined.

(** ** Files *)

Lemma assoc_set_same (n : string) (f : file) (l : list (string * file)) :
  assoc n (assoc_set n f l) = Some f.
Proof.
  induction l as [|[m g] l IH]; simpl.
  - now rewrite String.eqb_refl.
  - destruct (String.eqb n m) eqn:E; simpl; rewrite E; [reflexivity | exact IH].
Qed.

Lemma assoc_set_other (n n' : string) (f : file) (l : list (string * file)) :
  n' <> n -> assoc n' (assoc_set n f l) = assoc n' l.
Proof.
  intros Hne. induction l as [|[m g] l IH]; simpl.
  - apply String.eqb_neq in Hne. now rewrite Hne.
  - destruct (String.eqb n m) eqn:E; simpl.
    + apply String.eqb_eq in E. subst m.
      apply String.eqb_neq in Hne. now rewrite Hne.
    + destruct (String.eqb n' m); [reflexivity | exact IH].
Qed.

(** Writing back what a file holds changes nothing. *)
Lemma assoc_set_id (n : string) (f : file) (l : list (string * file)) :
  assoc n l = Some f -> assoc_set n f l = l.
Proof.
  induction l as [|[m g] l IH]; simpl; [discriminate |].
  destruct (String.eqb n m) eqn:E.
  - intros [= ->]. reflexivity.
  - intros Hl. now rewrite IH.
Qed.

(** What a successful [save] leaves behind. *)
Lemma save_ok (wb : workbook) (n : string) (fs fs' : filesystem) :
  save wb n fs = inr fs' ->
  project_file fs' n = Some {| contents := Some wb; locked := false |}
  /\ (forall n', n' <> n -> project_file fs' n' = project_file fs n')
  /\ template fs' = template fs.
Proof.
  unfold save, project_file. destruct (projects fs) as [l|]; [| discriminate].
  destruct (assoc n l) as [f|] eqn:Ef; [destruct (locked f); [discriminate |] |];
    intros [= <-]; simpl; (split; [apply assoc_set_same |]);
    (split; [intros n' Hn'; now apply assoc_set_other | reflexivity]).
Qed.

(** [save] on a file that is not locked goes through. *)
Lemma save_unlocked (wb : workbook) (n : string) (fs : filesystem) (f : file) :
  project_file fs n = Some f -> locked f = false ->
  exists fs', save wb n fs = inr fs'.
Proof.
  unfold save, project_file. destruct (projects fs) as [l|]; [| discriminate].
  intros -> ->. eauto.
Qed.

Lemma has_sheet_In (n : string) (wb : workbook) :
  has_sheet n wb = true <-> In n (sheetnames wb).
Proof.
  unfold has_sheet. rewrite existsb_exists. split.
  - intros (x & Hx & E). apply String.eqb_eq in E. now subst.
  - intros Hn. exists n. split; [exact Hn | apply String.eqb_refl].
Qed.

(** ** [create_po]: the refusals *)

Section CreatePoFacts.
Context `{Openpyxl}.

(** C2: when the project file already has a sheet of exactly that name,
    [create_po] returns a failure and the file system, hence the sheets of
    the file, is what it was: nothing is saved. With a readable template the
    failure is the "already exists" one. *)
Theorem create_po_existing_name (fs : filesystem) (project_name po_name : string)
    (f : file) (wb : workbook) :
  project_file fs project_name = Some f ->
  contents f = Some wb ->
  In po_name (sheetnames wb) ->
  exists r,
    create_po project_name po_name fs = (fs, r, [])
    /\ success r = false
    /\ (forall tf twb, template fs = Some tf -> contents tf = Some twb ->
          r = Failure ("PO '" +:+ po_name +:+ "' already exists.")).
Proof.
  intros Hf Hwb Hin. apply has_sheet_In in Hin.
  unfold create_po, load_workbook. rewrite Hf, Hwb.
  destruct (template fs) as [tf|]; [| eexists; repeat split; discriminate].
  destruct (contents tf) as [twb|] eqn:Et; rewrite ?Hin;
    eexists; (split; [reflexivity |]); (split; [reflexivity |]).
  - intros ? ? _ _. reflexivity.
  - intros ? ? [= <-] Ht. congruence.
Qed.

(** C8: without the project file, or without the template file, [create_po]
    returns a failure dictionary and writes nothing; a success, or any change
    of the file system, needs both files. *)
Theorem create_po_needs_both_files (fs : filesystem) (project_name po_name : string) :
  (project_file fs project_name = None ->
     create_po project_name po_name fs
     = (fs, Failure ("Project '" +:+ project_name +:+ "' not found."), []))
  /\ (template fs = None ->
        exists msg, create_po project_name po_name fs = (fs, Failure msg, []))
  /\ (forall fs' r log,
        create_po project_name po_name fs = (fs', r, log) ->
        success r = true \/ fs' <> fs ->
        is_Some (project_file fs project_name) /\ is_Some (template fs)).
Proof.
  unfold create_po. split; [| split].
  - intros ->. reflexivity.
  - intros ->. destruct (project_file fs project_name); eauto.
  - intros fs' r log.
    destruct (project_file fs project_name) as [pf|];
      [| intros [= <- <- <-] [Hs | Hne]; [discriminate | congruence]].
    destruct (template fs) as [tf|];
      [| intros [= <- <- <-] [Hs | Hne]; [discriminate | congruence]].
    intros _ _. split; eauto.
Qed.

End CreatePoFacts.

(** ** Updating one sheet *)

(** [update_sheet] rewrites one position of the workbook: that of the first
    sheet with the title. *)
Lemma update_sheet_insert (n : string) (g : worksheet -> worksheet) (wb : workbook) :
  has_sheet n wb = true ->
  exists i ws,
    wb !! i = Some ws /\ title ws = n
    /\ update_sheet n g wb = <[i := g ws]> wb.
Proof.
  unfold has_sheet, sheetnames.
  induction wb as [|ws wb IH]; simpl; [discriminate |].
  destruct (String.eqb n (title ws)) eqn:E; simpl.
  - intros _. apply String.eqb_eq in E. exists 0, ws. auto.
  - intros Hex. destruct (IH Hex) as (i & ws' & Hi & Ht & Hu).
    exists (S i), ws'. simpl. rewrite Hu. auto.
Qed.

Lemma insert_same_image {B} (h : worksheet -> B) (wb : workbook) (i : nat)
    (ws ws' : worksheet) :
  wb !! i = Some ws -> h ws' = h ws -> map h (<[i := ws']> wb) = map h wb.
Proof.
  revert i. induction wb as [|w wb IH]; intros [|i]; simpl; try discriminate.
  - intros [= ->] ->. reflexivity.
  - intros Hi Hh. f_equal. now apply IH.
Qed.

(** ** [delete_po] *)

(** [delete_po] succeeds on an unlocked, readable project file that has the
    sheet. *)
Lemma delete_po_succeeds (fs : filesystem) (project_name po_name : string)
    (f : file) (wb : workbook) :
  project_file fs project_name = Some f ->
  contents f = Some wb ->
  locked f = false ->
  In po_name (sheetnames wb) ->
  exists fs',
    delete_po project_name po_name fs
    = (fs', Success ("PO '" +:+ po_name +:+ "' marked as deleted.")).
Proof.
  intros Hf Hwb Hl Hin. apply has_sheet_In in Hin.
  unfold delete_po, load_workbook. rewrite Hf, Hwb, Hin. simpl.
  destruct (save_unlocked (update_sheet po_name (set_tabColor red) wb)
              project_name fs f Hf Hl) as (fs' & ->).
  eauto.
Qed.

(** C5: a successful [delete_po] replaces the project file by the same
    workbook in which the sheet of that name has the tab colour "FFFF0000":
    the number of sheets, their names and order, and every cell of every
    sheet are what they were, and no other file changes. *)
Theorem delete_po_only_recolours (fs fs' : filesystem)
    (project_name po_name : string) (r : response) :
  delete_po project_name po_name fs = (fs', r) ->
  success r = true ->
  exists f wb i ws,
    project_file fs project_name = Some f
    /\ contents f = Some wb
    /\ wb !! i = Some ws
    /\ title ws = po_name
    /\ let wb' :=
         <[i := {| title := title ws; tabColor := Some "FFFF0000";
                   cells := cells ws |}]> wb in
       project_file fs' project_name
       = Some {| contents := Some wb'; locked := false |}
       /\ (forall n, n <> project_name -> project_file fs' n = project_file fs n)
       /\ template fs' = template fs
       /\ length wb' = length wb
       /\ sheetnames wb' = sheetnames wb
       /\ map cells wb' = map cells wb.
Proof.
  unfold delete_po, load_workbook.
  destruct (project_file fs project_name) as [f|] eqn:Hf;
    [| intros [= <- <-]; discriminate].
  destruct (contents f) as [wb|] eqn:Hwb; [| intros [= <- <-]; discriminate].
  destruct (has_sheet po_name wb) eqn:Hin; simpl;
    [| intros [= <- <-]; discriminate].
  destruct (update_sheet_insert po_name (set_tabColor red) wb Hin)
    as (i & ws & Hi & Ht & Hu).
  rewrite Hu.
  destruct (save _ project_name fs) as [e|fs2] eqn:Hsave;
    [intros [= <- <-]; discriminate |].
  intros [= <- <-] _.
  apply save_ok in Hsave as (Hnew & Hothers & Htpl).
  exists f, wb, i, ws.
  split; [reflexivity |]. split; [exact Hwb |]. split; [exact Hi |].
  split; [exact Ht |].
  cbv zeta. split; [exact Hnew |]. split; [exact Hothers |].
  split; [exact Htpl |]. split; [apply length_insert |].
  split; eapply insert_same_image; eauto.
Qed.

(** ** [create_excel_file] *)

Lemma project_file_makedirs (fs : filesystem) (n : string) :
  project_file (makedirs fs) n = project_file fs n.
Proof. destruct fs as [[l|] t]; reflexivity. Qed.

Lemma create_excel_file_ok (n : string) (fs fs1 : filesystem) (r : response) :
  create_excel_file n fs = (fs1, r) ->
  success r = true ->
  let file_name := file_name_of (safe_project_name n) in
  project_file fs1 file_name = Some fresh_project_file
  /\ (forall m, m <> file_name -> project_file fs1 m = project_file fs m)
  /\ template fs1 = template fs
  /\ r = Success ("Project '" +:+ file_name
                  +:+ "' created successfully in 'projects' folder!").
Proof.
  unfold create_excel_file.
  destruct (save initial_workbook _ (makedirs fs)) as [e|fs2] eqn:Hsave;
    intros [= <- <-]; [discriminate |]. intros _.
  apply save_ok in Hsave as (Hnew & Hothers & Htpl).
  cbv zeta. split; [exact Hnew |].
  split; [intros m Hm; rewrite Hothers, project_file_makedirs; auto |].
  split; [| reflexivity].
  rewrite Htpl. destruct fs as [[l|] t]; reflexivity.
Qed.

(** Creating over a fresh file changes nothing. *)
Lemma create_excel_file_again (n : string) (fs : filesystem) :
  project_file fs (file_name_of (safe_project_name n)) = Some fresh_project_file ->
  create_excel_file n fs
  = (fs, Success ("Project '" +:+ file_name_of (safe_project_name n)
                  +:+ "' created successfully in 'projects' folder!")).
Proof.
  unfold create_excel_file, save, makedirs, project_file.
  destruct fs as [[l|] t]; simpl; [| discriminate].
  intros Hl. rewrite Hl. simpl.
  change {| contents := Some initial_workbook; locked := false |}
    with fresh_project_file.
  now rewrite (assoc_set_id _ _ _ Hl).
Qed.

(** C7: two names with the same sanitised form resolve to the same path; a
    successful creation leaves at that path a workbook with the single sheet
    "Sheet1", whatever the file held before, and repeating it on the result
    returns the same dictionary and leaves the file system as it is. *)
Theorem create_excel_file_idempotent (a b : string) (fs fs1 : filesystem)
    (r1 : response) :
  safe_project_name a = safe_project_name b ->
  create_excel_file a fs = (fs1, r1) ->
  success r1 = true ->
  file_path_of a = file_path_of b
  /\ project_file fs1 (snd (file_path_of b)) = Some fresh_project_file
  /\ create_excel_file b fs1 = (fs1, r1)
  /\ (forall fs_mid fs2 r2,
        create_excel_file b fs_mid = (fs2, r2) -> success r2 = true ->
        project_file fs2 (snd (file_path_of a)) = Some fresh_project_file
        /\ sheetnames <$> (project_file fs2 (snd (file_path_of a)) ≫= contents)
           = Some ["Sheet1"]).
Proof.
  intros Hab Ha Hs.
  destruct (create_excel_file_ok a fs fs1 r1 Ha Hs) as (Hnew & _ & _ & Hr).
  cbv zeta in *. unfold file_path_of, os_path_join. simpl snd. rewrite <- Hab.
  split; [reflexivity |]. split; [exact Hnew |]. split.
  - rewrite Hr, Hab. apply create_excel_file_again. now rewrite <- Hab.
  - intros fs_mid fs2 r2 Hb Hs2.
    destruct (create_excel_file_ok b fs_mid fs2 r2 Hb Hs2) as (Hnew2 & _).
    cbv zeta in Hnew2. rewrite <- Hab in Hnew2. rewrite Hnew2.
    split; reflexivity.
Qed.

(** ** Cell writes *)

Lemma get_cell_set_value (k k' : coord) (v : value) (ws : worksheet) :
  get_cell (set_value k v ws) k' =
  if decide (k = k')
  then {| cell_value := v; cell_style := cell_style (get_cell ws k) |}
  else get_cell ws k'.
Proof.
  unfold get_cell at 1, set_value, set_cells. simpl.
  rewrite lookup_insert. destruct (decide (k = k')); reflexivity.
Qed.

Lemma get_cell_set_style (k k' : coord) (st : style) (ws : worksheet) :
  get_cell (set_style k st ws) k' =
  if decide (k = k')
  then {| cell_value := cell_value (get_cell ws k); cell_style := st |}
  else get_cell ws k'.
Proof.
  unfold get_cell at 1, set_style, set_cells. simpl.
  rewrite lookup_insert. destruct (decide (k = k')); reflexivity.
Qed.

Lemma set_value_style (k k' : coord) (v : value) (ws : worksheet) :
  cell_style (get_cell (set_value k v ws) k') = cell_style (get_cell ws k').
Proof. rewrite get_cell_set_value. destruct (decide (k = k')); now subst. Qed.

Lemma set_value_other (k k' : coord) (v : value) (ws : worksheet) :
  k <> k' -> get_cell (set_value k v ws) k' = get_cell ws k'.
Proof. intros Hk. rewrite get_cell_set_value. now destruct (decide (k = k')). Qed.

Lemma set_value_same (k : coord) (v : value) (ws : worksheet) :
  cell_value (get_cell (set_value k v ws) k) = v.
Proof. rewrite get_cell_set_value. now destruct (decide (k = k)). Qed.

(** ** [save_po_data] *)

Lemma row_after_nat (row : positive) (i : nat) :
  Pos.to_nat (row_after row i) = Pos.to_nat row + i.
Proof.
  unfold row_after. induction i as [|i IH]; simpl; [lia |].
  rewrite Pos2Nat.inj_succ, IH. lia.
Qed.

Lemma row_after_succ (row : positive) (i : nat) :
  row_after (row + 1) i = row_after row (S i).
Proof. apply Pos2Nat.inj. rewrite !row_after_nat. lia. Qed.

(** The loop leaves alone every cell above its first row, below its last
    row, or right of column D. *)
Lemma write_items_frame (l : list item) (row : positive) (sheet : worksheet)
    (k : coord) :
  Pos.to_nat (fst k) < Pos.to_nat row
  \/ Pos.to_nat row + length l <= Pos.to_nat (fst k)
  \/ 4 < Pos.to_nat (snd k) ->
  get_cell (write_items row l sheet) k = get_cell sheet k.
Proof.
  revert row sheet. induction l as [|it l IH]; intros row sheet Hk; [reflexivity |].
  simpl write_items. rewrite IH by (simpl in Hk; lia).
  destruct k as [r c]. simpl in Hk.
  rewrite !set_value_other; [reflexivity | unfold col_A, col_B, col_C, col_D ..];
    intros [= <- <-]; lia.
Qed.

Lemma write_items_style (l : list item) (row : positive) (sheet : worksheet)
    (k : coord) :
  cell_style (get_cell (write_items row l sheet) k) = cell_style (get_cell sheet k).
Proof.
  revert row sheet. induction l as [|it l IH]; intros row sheet; [reflexivity |].
  simpl write_items. now rewrite IH, !set_value_style.
Qed.

(** Item [i] lands in row [row + i], columns A to D. *)
Lemma write_items_values (l : list item) (row : positive) (sheet : worksheet)
    (i : nat) (it : item) :
  l !! i = Some it ->
  let sheet' := write_items row l sheet in
  cell_value (get_cell sheet' (row_after row i, col_A)) = item_name it
  /\ cell_value (get_cell sheet' (row_after row i, col_B)) = quantity it
  /\ cell_value (get_cell sheet' (row_after row i, col_C)) = unit_price it
  /\ cell_value (get_cell sheet' (row_after row i, col_D)) = description it.
Proof.
  revert row sheet i. induction l as [|x l IH]; intros row sheet [|i]; simpl;
    try discriminate.
  - intros [= ->].
    rewrite !write_items_frame by (simpl; lia).
    rewrite !get_cell_set_value. unfold col_A, col_B, col_C, col_D.
    repeat (destruct (decide _) as [E|E]; try (exfalso; congruence); clear E).
    repeat split; try reflexivity.
    all: repeat (destruct (decide _) as [E|E];
                 [try (exfalso; congruence) | try (exfalso; congruence)]);
      reflexivity.
  - intros Hi. specialize (IH (row + 1)%positive
                              (set_value (row, col_D) (description x)
                                 (set_value (row, col_C) (unit_price x)
                                    (set_value (row, col_B) (quantity x)
                                       (set_value (row, col_A) (item_name x) sheet))))
                              i Hi).
    cbv zeta in IH. rewrite row_after_succ in IH. exact IH.
Qed.

Ltac coord_neq := let E := fresh in intros E; vm_compute in E; discriminate.

Ltac read_fixed :=
  repeat first
    [ rewrite set_value_same
    | rewrite set_value_other by coord_neq
    | rewrite write_items_frame by (left; vm_compute; lia) ];
  try reflexivity.

Lemma write_po_data_fixed (d : po_data) (sheet : worksheet) :
  let sheet' := write_po_data d sheet in
  cell_value (get_cell sheet' B2) = name (vendor d)
  /\ cell_value (get_cell sheet' B4) = address (vendor d)
  /\ cell_value (get_cell sheet' B5) = contact (vendor d)
  /\ cell_value (get_cell sheet' B6) = email (vendor d)
  /\ cell_value (get_cell sheet' B3) = date (delivery d)
  /\ cell_value (get_cell sheet' B7) = instructions (delivery d)
  /\ cell_value (get_cell sheet' B8) = terms d.
Proof.
  cbv zeta. unfold write_po_data, items_start_row.
  repeat split; read_fixed.
Qed.

Lemma write_po_data_items (d : po_data) (sheet : worksheet) (j : nat) (it : item) :
  items d !! j = Some it ->
  let sheet' := write_po_data d sheet in
  let row := Pos.of_nat (10 + j) in
  cell_value (get_cell sheet' (row, col_A)) = item_name it
  /\ cell_value (get_cell sheet' (row, col_B)) = quantity it
  /\ cell_value (get_cell sheet' (row, col_C)) = unit_price it
  /\ cell_value (get_cell sheet' (row, col_D)) = description it.
Proof.
  intros Hj. cbv zeta. unfold write_po_data, items_start_row.
  assert (Hrow : Pos.of_nat (10 + j) = row_after 10 j).
  { apply Pos2Nat.inj. rewrite row_after_nat, Nat2Pos.id; lia. }
  rewrite Hrow.
  assert (Hne : forall c, (8%positive, col_B) <> (row_after 10 j, c)).
  { intros c [= E _]. pose proof (row_after_nat 10 j) as Hn.
    rewrite <- E in Hn. lia. }
  unfold B8. rewrite !(set_value_other _ _ _ _ (Hne _)).
  now apply write_items_values.
Qed.

Lemma write_po_data_frame (d : po_data) (sheet : worksheet) (k : coord) :
  k ∉ fixed_cells ->
  is_item_cell (length (items d)) k = false ->
  get_cell (write_po_data d sheet) k = get_cell sheet k.
Proof.
  unfold fixed_cells, is_item_cell. intros Hk Hi.
  repeat (apply not_elem_of_cons in Hk as [? Hk]).
  unfold write_po_data, items_start_row.
  rewrite set_value_other by congruence.
  rewrite write_items_frame.
  - rewrite !set_value_other by congruence. reflexivity.
  - rewrite !andb_false_iff, !Nat.leb_gt, Nat.ltb_ge in Hi.
    change (Pos.to_nat 10) with 10. lia.
Qed.

Lemma write_po_data_style (d : po_data) (sheet : worksheet) (k : coord) :
  cell_style (get_cell (write_po_data d sheet) k) = cell_style (get_cell sheet k).
Proof.
  unfold write_po_data. now rewrite set_value_style, write_items_style, !set_value_style.
Qed.

Lemma write_items_meta (l : list item) (row : positive) (sheet : worksheet) :
  title (write_items row l sheet) = title sheet
  /\ tabColor (write_items row l sheet) = tabColor sheet.
Proof.
  revert row sheet. induction l as [|it l IH]; intros row sheet; [now split |].
  simpl write_items. destruct (IH (row + 1)%positive
    (set_value (row, col_D) (description it)
       (set_value (row, col_C) (unit_price it)
          (set_value (row, col_B) (quantity it)
             (set_value (row, col_A) (item_name it) sheet))))) as [-> ->].
  now split.
Qed.

Lemma write_po_data_meta (d : po_data) (sheet : worksheet) :
  title (write_po_data d sheet) = title sheet
  /\ tabColor (write_po_data d sheet) = tabColor sheet.
Proof.
  unfold write_po_data. simpl.
  destruct (write_items_meta (items d) items_start_row
    (set_value B7 (instructions (delivery d))
       (set_value B3 (date (delivery d))
          (set_value B6 (email (vendor d))
             (set_value B5 (contact (vendor d))
                (set_value B4 (address (vendor d))
                   (set_value B2 (name (vendor d)) sheet))))))) as [-> ->].
  now split.
Qed.

Lemma write_po_data_stale (d : po_data) (sheet : worksheet) (r c : positive) :
  10 + length (items d) <= Pos.to_nat r ->
  get_cell (write_po_data d sheet) (r, c) = get_cell sheet (r, c).
Proof.
  intros Hr. apply write_po_data_frame.
  - unfold fixed_cells. rewrite !not_elem_of_cons.
    repeat split; try (intros [= -> _]; vm_compute in Hr; lia).
    apply not_elem_of_nil.
  - unfold is_item_cell. simpl.
    rewrite !andb_false_iff, Nat.ltb_ge. auto.
Qed.

(** [save_po_data] succeeds on an unlocked, readable project file that has
    the sheet. *)
Lemma save_po_data_succeeds (fs : filesystem) (project_name po_name : string)
    (d : po_data) (f : file) (wb : workbook) :
  project_file fs project_name = Some f ->
  contents f = Some wb ->
  locked f = false ->
  In po_name (sheetnames wb) ->
  exists fs',
    save_po_data project_name po_name d fs
    = (fs', Success "PO data saved successfully.").
Proof.
  intros Hf Hwb Hl Hin. apply has_sheet_In in Hin.
  unfold save_po_data, load_workbook. rewrite Hf, Hwb, Hin. simpl.
  destruct (save_unlocked (update_sheet po_name (write_po_data d) wb)
              project_name fs f Hf Hl) as (fs' & ->).
  eauto.
Qed.

(** C6: a successful [save_po_data] with [n] items rewrites the sheet of that
    name so that B2, B4, B5, B6, B3, B7, B8 hold the vendor, delivery and
    terms values and rows 10..10+n-1 hold the items in columns A to D; every
    other cell, and so every row from 10+n on, is what it was (rows left by a
    longer earlier list survive), and no style changes. *)
Theorem save_po_data_writes (fs fs' : filesystem) (project_name po_name : string)
    (d : po_data) (r : response) :
  save_po_data project_name po_name d fs = (fs', r) ->
  success r = true ->
  exists f wb i sheet sheet',
    project_file fs project_name = Some f
    /\ contents f = Some wb
    /\ wb !! i = Some sheet
    /\ title sheet = po_name
    /\ project_file fs' project_name
       = Some {| contents := Some (<[i := sheet']> wb); locked := false |}
    /\ title sheet' = title sheet
    /\ tabColor sheet' = tabColor sheet
    /\ (cell_value (get_cell sheet' B2) = name (vendor d)
        /\ cell_value (get_cell sheet' B4) = address (vendor d)
        /\ cell_value (get_cell sheet' B5) = contact (vendor d)
        /\ cell_value (get_cell sheet' B6) = email (vendor d)
        /\ cell_value (get_cell sheet' B3) = date (delivery d)
        /\ cell_value (get_cell sheet' B7) = instructions (delivery d)
        /\ cell_value (get_cell sheet' B8) = terms d)
    /\ (forall j it, items d !! j = Some it ->
          let row := Pos.of_nat (10 + j) in
          cell_value (get_cell sheet' (row, col_A)) = item_name it
          /\ cell_value (get_cell sheet' (row, col_B)) = quantity it
          /\ cell_value (get_cell sheet' (row, col_C)) = unit_price it
          /\ cell_value (get_cell sheet' (row, col_D)) = description it)
    /\ (forall k, k ∉ fixed_cells ->
          is_item_cell (length (items d)) k = false ->
          get_cell sheet' k = get_cell sheet k)
    /\ (forall row col, 10 + length (items d) <= Pos.to_nat row ->
          get_cell sheet' (row, col) = get_cell sheet (row, col))
    /\ (forall k, cell_style (get_cell sheet' k) = cell_style (get_cell sheet k)).
Proof.
  unfold save_po_data, load_workbook.
  destruct (project_file fs project_name) as [f|] eqn:Hf;
    [| intros [= <- <-]; discriminate].
  destruct (contents f) as [wb|] eqn:Hwb; [| intros [= <- <-]; discriminate].
  destruct (has_sheet po_name wb) eqn:Hin; simpl;
    [| intros [= <- <-]; discriminate].
  destruct (update_sheet_insert po_name (write_po_data d) wb Hin)
    as (i & sheet & Hi & Ht & Hu).
  rewrite Hu.
  destruct (save _ project_name fs) as [e|fs2] eqn:Hsave;
    [intros [= <- <-]; discriminate |].
  intros [= <- <-] _.
  apply save_ok in Hsave as (Hnew & _ & _).
  exists f, wb, i, sheet, (write_po_data d sheet).
  split; [reflexivity |]. split; [exact Hwb |]. split; [exact Hi |].
  split; [exact Ht |]. split; [exact Hnew |].
  split; [apply write_po_data_meta |]. split; [apply write_po_data_meta |].
  split; [apply write_po_data_fixed |].
  split; [intros j it Hj; now apply write_po_data_items |].
  split; [intros k; apply write_po_data_frame |].
  split; [intros row col; apply write_po_data_stale |].
  intros k. apply write_po_data_style.
Qed.

(** ** [create_po]: the copy *)

Lemma list_max_ge (l : list nat) (x : nat) : In x l -> x <= list_max l.
Proof.
  intros Hx. pose proof (proj1 (list_max_le l (list_max l)) (Nat.le_refl _)) as Hall.
  rewrite List.Forall_forall in Hall. now apply Hall.
Qed.

Lemma in_indices (n : nat) (p : positive) : Pos.to_nat p <= n -> In p (indices n).
Proof.
  intros Hp. unfold indices. apply in_map_iff. exists (Pos.to_nat p).
  split; [apply Pos2Nat.id | apply in_seq; lia].
Qed.

(** [iter_rows] visits every cell the sheet holds. *)
Lemma iter_rows_covers (ws : worksheet) (k : coord) (c : cell) :
  cells ws !! k = Some c -> In k (map fst (concat (iter_rows ws))).
Proof.
  intros Hk. apply elem_of_map_to_list in Hk. apply list_elem_of_In in Hk.
  destruct k as [r col]. apply in_map_iff. exists ((r, col), get_cell ws (r, col)).
  split; [reflexivity |]. apply in_concat.
  exists (map (fun c => ((r, c), get_cell ws (r, c))) (indices (max_column ws))).
  split.
  - unfold iter_rows. apply in_map_iff. exists r. split; [reflexivity |].
    apply in_indices, list_max_ge, in_map_iff. exists ((r, col), c). auto.
  - apply in_map_iff. exists col. split; [reflexivity |].
    apply in_indices, list_max_ge, in_map_iff. exists ((r, col), c). auto.
Qed.

(** Each entry [iter_rows] yields is the cell at its coordinate. *)
Lemma iter_rows_cells (ws : worksheet) (k : coord) (c : cell) :
  In (k, c) (concat (iter_rows ws)) -> c = get_cell ws k.
Proof.
  intros Hin. apply in_concat in Hin as (row & Hrow & Hin).
  unfold iter_rows in Hrow. apply in_map_iff in Hrow as (r & <- & _).
  apply in_map_iff in Hin as (col & [= <- <-] & _). reflexivity.
Qed.

Lemma fold_left_concat {S E} (step : S -> E -> S) (rows : list (list E)) (st : S) :
  fold_left (fun st row => fold_left step row st) rows st
  = fold_left step (concat rows) st.
Proof.
  revert st. induction rows as [|row rows IH]; intros st; simpl; [reflexivity |].
  now rewrite fold_left_app, IH.
Qed.

Lemma restyle_value (k k' : coord) (g : style -> style) (ws : worksheet) :
  cell_value (get_cell (restyle k g ws) k') = cell_value (get_cell ws k').
Proof.
  unfold restyle. rewrite get_cell_set_style.
  destruct (decide (k = k')); now subst.
Qed.

Section CopyFacts.
Context `{Openpyxl}.

Lemma copy_style_error (src : cell) (k : coord) (ws : worksheet) :
  snd (copy_style src k ws) = style_error src.
Proof.
  unfold style_error, copy_style.
  destruct (Font_init _); [reflexivity |].
  destruct (Border_init _); [reflexivity |].
  destruct (PatternFill_init _); [reflexivity |].
  destruct (Alignment_init _); reflexivity.
Qed.

(** Copying a style touches no value and no title. *)
Lemma copy_style_value (src : cell) (k k' : coord) (ws : worksheet) :
  cell_value (get_cell (fst (copy_style src k ws)) k') = cell_value (get_cell ws k')
  /\ title (fst (copy_style src k ws)) = title ws.
Proof.
  unfold copy_style.
  destruct (Font_init _); [now split |].
  destruct (Border_init _); [simpl; now rewrite restyle_value |].
  destruct (PatternFill_init _); [simpl; now rewrite !restyle_value |].
  destruct (Alignment_init _); simpl; now rewrite !restyle_value.
Qed.

Lemma copy_cell_spec (st : worksheet * list exn) (k : coord) (c : cell) :
  let st' := copy_cell st (k, c) in
  (forall k', cell_value (get_cell (fst st') k') =
              if decide (k = k') then cell_value c
              else cell_value (get_cell (fst st) k'))
  /\ title (fst st') = title (fst st)
  /\ snd st' = snd st ++ option_list (cell_warning (k, c)).
Proof.
  destruct st as [ws log]. cbv zeta. unfold copy_cell, cell_warning. simpl snd.
  destruct (has_style c).
  - pose proof (copy_style_error c k (set_value k (cell_value c) ws)) as He.
    pose proof (fun k' => copy_style_value c k k' (set_value k (cell_value c) ws)) as Hv.
    destruct (copy_style c k (set_value k (cell_value c) ws)) as [ws' [e|]];
      simpl in *; rewrite <- He; simpl.
    + split; [| split; [apply (Hv k) | reflexivity]].
      intros k'. rewrite (proj1 (Hv k')), get_cell_set_value.
      destruct (decide (k = k')); reflexivity.
    + split; [| split; [apply (Hv k) | now rewrite app_nil_r]].
      intros k'. rewrite (proj1 (Hv k')), get_cell_set_value.
      destruct (decide (k = k')); reflexivity.
  - simpl. split; [| split; [reflexivity | now rewrite app_nil_r]].
    intros k'. rewrite get_cell_set_value. destruct (decide (k = k')); reflexivity.
Qed.

(** The loop over entries that hold the template's cells: every visited
    coordinate ends with the template's value, the others keep theirs, and
    the log grows by the warnings in visiting order. *)
Lemma copy_cells_spec (tpl : worksheet) (entries : list (coord * cell))
    (st : worksheet * list exn) :
  (forall k c, In (k, c) entries -> c = get_cell tpl k) ->
  let st' := fold_left copy_cell entries st in
  (forall k', cell_value (get_cell (fst st') k') =
              if bool_decide (k' ∈ map fst entries)
              then cell_value (get_cell tpl k')
              else cell_value (get_cell (fst st) k'))
  /\ title (fst st') = title (fst st)
  /\ snd st' = snd st ++ omap cell_warning entries.
Proof.
  revert st. induction entries as [|[k c] entries IH]; intros st Hent; cbv zeta.
  - simpl. split; [| split; [reflexivity | now rewrite app_nil_r]].
    intros k'. reflexivity.
  - simpl fold_left.
    destruct (IH (copy_cell st (k, c))) as (Hv & Ht & Hl).
    { intros k0 c0 Hin. apply Hent. now right. }
    destruct (copy_cell_spec st k c) as (Hv1 & Ht1 & Hl1).
    cbv zeta in *. split; [| split].
    + intros k'. rewrite Hv. simpl map.
      destruct (bool_decide (k' ∈ map fst entries)) eqn:E.
      * apply bool_decide_eq_true in E.
        rewrite bool_decide_eq_true_2 by (apply elem_of_cons; tauto). reflexivity.
      * apply bool_decide_eq_false in E. rewrite Hv1.
        destruct (decide (k = k')) as [->|Hne].
        -- rewrite bool_decide_eq_true_2 by (apply elem_of_cons; tauto).
           now rewrite (Hent k' c (or_introl eq_refl)).
        -- rewrite bool_decide_eq_false_2; [reflexivity |].
           rewrite elem_of_cons. intros [?|?]; [congruence | tauto].
    + now rewrite Ht, Ht1.
    + rewrite Hl, Hl1, <- app_assoc. f_equal.
      simpl omap. destruct (cell_warning (k, c)); reflexivity.
Qed.

(** The whole copy: the new sheet reads, at every coordinate, the value the
    template reads there. *)
Lemma copy_rows_spec (tpl : worksheet) (po_name : string) :
  let st' := copy_rows (iter_rows tpl) (empty_sheet po_name, []) in
  (forall k, cell_value (get_cell (fst st') k) = cell_value (get_cell tpl k))
  /\ title (fst st') = po_name
  /\ snd st' = omap cell_warning (concat (iter_rows tpl)).
Proof.
  cbv zeta. unfold copy_rows. rewrite fold_left_concat.
  destruct (copy_cells_spec tpl (concat (iter_rows tpl)) (empty_sheet po_name, []))
    as (Hv & Ht & Hl); [apply iter_rows_cells |].
  cbv zeta in *. split; [| split; [exact Ht | exact Hl]].
  intros k. rewrite Hv.
  destruct (bool_decide (k ∈ map fst (concat (iter_rows tpl)))) eqn:E;
    [reflexivity |].
  apply bool_decide_eq_false in E.
  unfold get_cell at 2. destruct (cells tpl !! k) as [c|] eqn:Hk; [| reflexivity].
  exfalso. apply E. apply list_elem_of_In. eapply iter_rows_covers. exact Hk.
Qed.

End CopyFacts.

Section CreatePoCopies.
Context `{Openpyxl}.

(** C9: with both files readable, the project file unlocked and the name
    new and accepted as a title, [create_po] saves the project workbook with
    one more sheet that holds at every coordinate the value of the template
    sheet, and returns success; this for any outcome of the style
    constructors. The cells whose style copy raised are exactly the warnings
    printed, in visiting order; none of them stops the loop. *)
Theorem create_po_survives_style_errors (fs : filesystem)
    (project_name po_name new_title : string) (pf tf : file)
    (project_wb rest : workbook) (template_sheet : worksheet) :
  project_file fs project_name = Some pf ->
  contents pf = Some project_wb ->
  locked pf = false ->
  template fs = Some tf ->
  contents tf = Some (template_sheet :: rest) ->
  ~ In po_name (sheetnames project_wb) ->
  create_sheet_title (sheetnames project_wb) po_name = inr new_title ->
  exists fs' new_sheet,
    create_po project_name po_name fs
    = (fs', Success ("PO '" +:+ po_name +:+ "' created successfully."),
       omap cell_warning (concat (iter_rows template_sheet)))
    /\ project_file fs' project_name
       = Some {| contents := Some (project_wb ++ [new_sheet]); locked := false |}
    /\ title new_sheet = new_title
    /\ (forall k, cell_value (get_cell new_sheet k)
                  = cell_value (get_cell template_sheet k)).
Proof.
  intros Hpf Hwb Hl Htf Htwb Hnew Htitle.
  assert (Hhas : has_sheet po_name project_wb = false).
  { destruct (has_sheet po_name project_wb) eqn:E; [| reflexivity].
    apply has_sheet_In in E. contradiction. }
  unfold create_po, load_workbook. rewrite Hpf, Htf, Hwb, Htwb, Hhas, Htitle.
  destruct (copy_rows_spec template_sheet new_title) as (Hv & Ht & Hlog).
  cbv zeta in *.
  destruct (copy_rows (iter_rows template_sheet) (empty_sheet new_title, []))
    as [new_sheet log]. simpl in Hv, Ht, Hlog. subst log.
  destruct (save_unlocked (put_new_sheet project_wb new_sheet) project_name fs pf Hpf Hl)
    as (fs' & Hsave).
  rewrite Hsave. apply save_ok in Hsave as (Hfile & _ & _).
  exists fs', new_sheet. auto.
Qed.

End CreatePoCopies.

(** ** [get_vendor_details] *)

Lemma scan_sheet_take_later (vendor_name : string) (st : scan_state)
    (ws : worksheet) :
  vd_name (snd st) = vendor_name ->
  scan_sheet vendor_name st ws =
  match dated_match vendor_name ws with
  | Some m => take_later vendor_name st m
  | None => st
  end.
Proof.
  intros Hn. unfold scan_sheet, dated_match, take_later, details_on, as_datetime.
  destruct (startswith "PO" (title ws)); [| reflexivity].
  destruct (value_is _ vendor_name); [| reflexivity]. simpl.
  destruct (cell_value (get_cell ws B3)); try reflexivity.
  simpl. now rewrite Hn.
Qed.

Lemma take_later_name (vendor_name : string) (st : scan_state) (m : Z * worksheet) :
  vd_name (snd st) = vendor_name ->
  vd_name (snd (take_later vendor_name st m)) = vendor_name.
Proof. unfold take_later. now destruct (is_later _ _). Qed.

Lemma fold_take_later_name (vendor_name : string) (ms : list (Z * worksheet))
    (st : scan_state) :
  vd_name (snd st) = vendor_name ->
  vd_name (snd (fold_left (take_later vendor_name) ms st)) = vendor_name.
Proof.
  revert st. induction ms as [|m ms IH]; intros st Hn; [exact Hn |].
  simpl. now apply IH, take_later_name.
Qed.

Lemma scan_sheets_fold (vendor_name : string) (wb : workbook) (st : scan_state) :
  vd_name (snd st) = vendor_name ->
  fold_left (scan_sheet vendor_name) wb st
  = fold_left (take_later vendor_name) (omap (dated_match vendor_name) wb) st.
Proof.
  revert st. induction wb as [|ws wb IH]; intros st Hn; [reflexivity |].
  simpl. rewrite scan_sheet_take_later by exact Hn.
  destruct (dated_match vendor_name ws) as [m|]; simpl; [| now apply IH].
  now apply IH, take_later_name.
Qed.

(** When every [.xlsx] file of the directory loads, the scan is the fold of
    [take_later] over the dated matches. *)
Lemma scan_files_fold (vendor_name : string) (l : list (string * file))
    (st : scan_state) :
  (forall n f, In (n, f) l -> endswith ".xlsx" n = true -> contents f <> None) ->
  vd_name (snd st) = vendor_name ->
  scan_files vendor_name l st
  = inr (fold_left (take_later vendor_name) (dated_matches vendor_name l) st).
Proof.
  revert st. induction l as [|[n f] l IH]; intros st Hload Hn; [reflexivity |].
  unfold dated_matches, scanned_sheets in *. simpl.
  assert (Hl : forall n f, In (n, f) l -> endswith ".xlsx" n = true -> contents f <> None).
  { intros n0 f0 Hin. apply Hload. now right. }
  destruct (endswith ".xlsx" n) eqn:E; [| now apply IH].
  unfold load_workbook.
  destruct (contents f) as [wb|] eqn:Hwb;
    [| exfalso; now apply (Hload n f (or_introl eq_refl) E)].
  simpl. rewrite omap_app, fold_left_app, <- (scan_sheets_fold vendor_name wb st Hn).
  apply IH; [exact Hl |].
  rewrite (scan_sheets_fold vendor_name wb st Hn). now apply fold_take_later_name.
Qed.

(** The fold keeps the first of the latest matches. *)
Lemma fold_take_later_first_max (vendor_name : string) (ms : list (Z * worksheet))
    (st : scan_state) :
  let st' := fold_left (take_later vendor_name) ms st in
  (st' = st /\ Forall (fun m => is_later (fst m) (fst st) = false) ms)
  \/ (exists pre t ws post,
        ms = pre ++ (t, ws) :: post
        /\ is_later t (fst st) = true
        /\ Forall (fun m => (fst m < t)%Z) pre
        /\ Forall (fun m => (fst m <= t)%Z) post
        /\ st' = (Some t, details_on vendor_name ws)).
Proof.
  revert st. induction ms as [|[t ws] ms IH]; intros st; cbv zeta.
  - left. split; [reflexivity | constructor].
  - simpl fold_left.
    destruct (is_later t (fst st)) eqn:E.
    + assert (Hstep : take_later vendor_name st (t, ws)
                      = (Some t, details_on vendor_name ws))
        by (unfold take_later; simpl; now rewrite E).
      rewrite Hstep. right.
      destruct (IH (Some t, details_on vendor_name ws))
        as [[Hst Hall] | (pre & t2 & ws2 & post & -> & Hl & Hpre & Hpost & Hst)];
        cbv zeta in *.
      * exists [], t, ws, ms. simpl.
        split; [reflexivity |]. split; [exact E |]. split; [constructor |].
        split; [| exact Hst].
        eapply List.Forall_impl; [| exact Hall].
        intros m Hm. simpl in Hm. apply Z.ltb_ge in Hm. exact Hm.
      * simpl in Hl. apply Z.ltb_lt in Hl.
        exists ((t, ws) :: pre), t2, ws2, post.
        split; [reflexivity |]. split.
        { destruct (fst st) as [l0|]; simpl in *; [| reflexivity].
          apply Z.ltb_lt in E. apply Z.ltb_lt. lia. }
        split; [constructor; [exact Hl | exact Hpre] |].
        split; [exact Hpost | exact Hst].
    + assert (Hstep : take_later vendor_name st (t, ws) = st)
        by (unfold take_later; simpl; now rewrite E).
      rewrite Hstep.
      destruct (IH st)
        as [[Hst Hall] | (pre & t2 & ws2 & post & -> & Hl & Hpre & Hpost & Hst)];
        cbv zeta in *.
      * left. split; [exact Hst |]. constructor; assumption.
      * right. exists ((t, ws) :: pre), t2, ws2, post.
        split; [reflexivity |]. split; [exact Hl |].
        split; [| split; [exact Hpost | exact Hst]].
        constructor; [| exact Hpre]. simpl.
        destruct (fst st) as [l0|]; simpl in *; [| discriminate].
        apply Z.ltb_ge in E. apply Z.ltb_lt in Hl. lia.
Qed.

(** C4: when every [.xlsx] file of the directory loads, [get_vendor_details]
    looks only at the sheets whose title starts with "PO", whose B2 is the
    vendor name and whose B3 is a datetime; it returns B4/B5/B6 (an empty
    cell read as the empty string) of the one with the latest B3, the first such in scan
    order, and the empty details when there is none. With two such sheets
    dated D1 < D2, in either scan order, the details are those of the D2
    sheet. *)
Theorem get_vendor_details_latest (fs : filesystem) (vendor_name : string)
    (l : list (string * file)) :
  projects fs = Some l ->
  (forall n f, In (n, f) l -> endswith ".xlsx" n = true -> contents f <> None) ->
  exists d,
    get_vendor_details vendor_name fs = Details d
    /\ ((dated_matches vendor_name l = [] /\ d = initial_details vendor_name)
        \/ (exists pre t ws post,
              dated_matches vendor_name l = pre ++ (t, ws) :: post
              /\ Forall (fun m => (fst m < t)%Z) pre
              /\ Forall (fun m => (fst m <= t)%Z) post
              /\ d = details_on vendor_name ws))
    /\ (forall D1 D2 ws1 ws2,
          dated_matches vendor_name l = [(D1, ws1); (D2, ws2)]
          \/ dated_matches vendor_name l = [(D2, ws2); (D1, ws1)] ->
          (D1 < D2)%Z ->
          d = details_on vendor_name ws2).
Proof.
  intros Hl Hload. unfold get_vendor_details. rewrite Hl.
  rewrite scan_files_fold by (exact Hload || reflexivity).
  set (ms := dated_matches vendor_name l).
  exists (snd (fold_left (take_later vendor_name) ms (None, initial_details vendor_name))).
  split; [reflexivity |].
  assert (Hgen :
    (ms = [] /\ snd (fold_left (take_later vendor_name) ms
                       (None, initial_details vendor_name))
                = initial_details vendor_name)
    \/ (exists pre t ws post,
          ms = pre ++ (t, ws) :: post
          /\ Forall (fun m => (fst m < t)%Z) pre
          /\ Forall (fun m => (fst m <= t)%Z) post
          /\ snd (fold_left (take_later vendor_name) ms
                    (None, initial_details vendor_name))
             = details_on vendor_name ws)).
  { destruct (fold_take_later_first_max vendor_name ms (None, initial_details vendor_name))
      as [[Hst Hall] | (pre & t & ws & post & Hms & _ & Hpre & Hpost & Hst)];
      cbv zeta in *.
    - left. destruct ms as [|m ms']; [split; reflexivity |].
      inversion Hall as [|? ? Hm _]; subst. simpl in Hm. discriminate.
    - right. exists pre, t, ws, post. rewrite Hst. auto. }
  split; [exact Hgen |].
  intros D1 D2 ws1 ws2 Hms Hlt.
  destruct Hgen as [[Hnil _] | (pre & t & ws & post & Hdec & Hpre & Hpost & Hd)].
  - rewrite Hnil in Hms. destruct Hms; discriminate.
  - rewrite Hd. rewrite Hdec in Hms.
    destruct Hms as [Hms | Hms]; destruct pre as [|p1 [|p2 pre]];
      simpl in Hms; inversion Hms; subst; try reflexivity.
    + inversion Hpost as [|? ? Hle _]; subst. simpl in Hle. lia.
    + destruct pre; discriminate.
    + inversion Hpre as [|? ? Hlt' _]; subst. simpl in Hlt'. lia.
    + destruct pre; discriminate.
Qed.

(** ** Worked instances *)

Lemma create_po_existing_name_ex :
  exists r,
    create_po (H := accepting_styles) "Acme.xlsx" "PO1" fs_ex = (fs_ex, r, [])
    /\ success r = false
    /\ (forall tf twb, template fs_ex = Some tf -> contents tf = Some twb ->
          r = Failure ("PO '" +:+ "PO1" +:+ "' already exists.")).
Proof.
  apply (create_po_existing_name (H := accepting_styles) fs_ex "Acme.xlsx" "PO1"
           acme_file acme_wb); [reflexivity | reflexivity |].
  simpl. auto.
Defined.

Example create_po_missing_ex :
  create_po (H := accepting_styles) "Gamma.xlsx" "PO1" fs_ex
  = (fs_ex, Failure "Project 'Gamma.xlsx' not found.", []).
Proof. reflexivity. Qed.

Lemma delete_po_only_recolours_ex :
  exists f wb i ws,
    project_file fs_ex "Acme.xlsx" = Some f
    /\ contents f = Some wb
    /\ wb !! i = Some ws
    /\ title ws = "PO1"
    /\ let wb' :=
         <[i := {| title := title ws; tabColor := Some "FFFF0000";
                   cells := cells ws |}]> wb in
       project_file (fst (delete_po "Acme.xlsx" "PO1" fs_ex)) "Acme.xlsx"
       = Some {| contents := Some wb'; locked := false |}
       /\ (forall n, n <> "Acme.xlsx" ->
             project_file (fst (delete_po "Acme.xlsx" "PO1" fs_ex)) n
             = project_file fs_ex n)
       /\ template (fst (delete_po "Acme.xlsx" "PO1" fs_ex)) = template fs_ex
       /\ length wb' = length wb
       /\ sheetnames wb' = sheetnames wb
       /\ map cells wb' = map cells wb.
Proof.
  apply (delete_po_only_recolours fs_ex (fst (delete_po "Acme.xlsx" "PO1" fs_ex))
           "Acme.xlsx" "PO1" (snd (delete_po "Acme.xlsx" "PO1" fs_ex)));
    [apply surjective_pairing | reflexivity].
Defined.

Example delete_po_keeps_data_ex :
  read_cell (fst (delete_po "Acme.xlsx" "PO1" fs_ex)) "Acme.xlsx" "PO1" B4
  = Some (VStr "2 New Road").
Proof. vm_compute. reflexivity. Qed.

Lemma save_po_data_writes_ex :
  exists f wb i sheet sheet',
    project_file fs_ex "Acme.xlsx" = Some f
    /\ contents f = Some wb
    /\ wb !! i = Some sheet
    /\ title sheet = "PO1"
    /\ project_file
         (fst (save_po_data "Acme.xlsx" "PO1" (order_ex [item_ex "nut" 3]) fs_ex))
         "Acme.xlsx"
       = Some {| contents := Some (<[i := sheet']> wb); locked := false |}
    /\ cell_value (get_cell sheet' B8) = VStr "30 days"
    /\ get_cell sheet' (11%positive, col_A) = get_cell sheet (11%positive, col_A).
Proof.
  destruct (save_po_data_writes fs_ex
              (fst (save_po_data "Acme.xlsx" "PO1" (order_ex [item_ex "nut" 3]) fs_ex))
              "Acme.xlsx" "PO1" (order_ex [item_ex "nut" 3])
              (snd (save_po_data "Acme.xlsx" "PO1" (order_ex [item_ex "nut" 3]) fs_ex))
              (surjective_pairing _) eq_refl)
    as (f & wb & i & sheet & sheet' & Hf & Hwb & Hi & Ht & Hnew & _ & _ & Hfix
        & _ & _ & Hstale & _).
  exists f, wb, i, sheet, sheet'.
  split; [exact Hf |]. split; [exact Hwb |]. split; [exact Hi |].
  split; [exact Ht |]. split; [exact Hnew |].
  split; [apply Hfix |]. apply Hstale. vm_compute. lia.
Defined.

(** Saving three items and then one: rows 11 and 12 still hold the second
    and third item of the first save. *)
Example stale_rows_survive :
  let fs1 := fst (save_po_data "Acme.xlsx" "PO1"
                    (order_ex [item_ex "nut" 3; item_ex "bolt" 4; item_ex "washer" 9])
                    fs_ex) in
  let fs2 := fst (save_po_data "Acme.xlsx" "PO1" (order_ex [item_ex "screw" 1]) fs1) in
  read_cell fs2 "Acme.xlsx" "PO1" (10%positive, col_A) = Some (VStr "screw")
  /\ read_cell fs2 "Acme.xlsx" "PO1" (11%positive, col_A) = Some (VStr "bolt")
  /\ read_cell fs2 "Acme.xlsx" "PO1" (12%positive, col_B) = Some (VNum 9)
  /\ read_cell fs2 "Acme.xlsx" "PO1" (13%positive, col_A) = Some VNone.
Proof. vm_compute. repeat split. Qed.

Lemma create_excel_file_idempotent_ex :
  file_path_of "My/Project" = file_path_of " MyProject? "
  /\ project_file (fst (create_excel_file "My/Project" fs_ex))
       (snd (file_path_of " MyProject? "))
     = Some fresh_project_file
  /\ create_excel_file " MyProject? " (fst (create_excel_file "My/Project" fs_ex))
     = create_excel_file "My/Project" fs_ex.
Proof.
  destruct (create_excel_file_idempotent "My/Project" " MyProject? " fs_ex
              (fst (create_excel_file "My/Project" fs_ex))
              (snd (create_excel_file "My/Project" fs_ex))
              eq_refl (surjective_pairing _) eq_refl)
    as (Hpath & Hfile & Hagain & _).
  split; [exact Hpath |]. split; [exact Hfile |].
  rewrite Hagain. symmetry. apply surjective_pairing.
Defined.

(** Creating a project over an existing one with PO sheets resets it. *)
Example create_excel_file_overwrites :
  sheetnames <$> (project_file (fst (create_excel_file "Acme" fs_ex)) "Acme.xlsx"
                   ≫= contents)
  = Some ["Sheet1"].
Proof. vm_compute. reflexivity. Qed.

Lemma create_po_survives_style_errors_ex :
  exists fs' new_sheet,
    create_po (H := rejecting_fills) "Acme.xlsx" "PO3" fs_ex
    = (fs', Success ("PO '" +:+ "PO3" +:+ "' created successfully."),
       omap (cell_warning (H := rejecting_fills))
         (concat (iter_rows template_sheet_ex)))
    /\ project_file fs' "Acme.xlsx"
       = Some {| contents := Some (acme_wb ++ [new_sheet]); locked := false |}
    /\ title new_sheet = "PO3"
    /\ (forall k, cell_value (get_cell new_sheet k)
                  = cell_value (get_cell template_sheet_ex k)).
Proof.
  apply (create_po_survives_style_errors (H := rejecting_fills) fs_ex
           "Acme.xlsx" "PO3" "PO3" acme_file template_file_ex acme_wb []
           template_sheet_ex);
    try reflexivity.
  simpl. intros [E | [E | [E | []]]]; discriminate.
Defined.

(** Two styled cells fail to copy; both are logged, the value after the
    first failure is still copied and the result is a success. *)
Example create_po_logs_and_goes_on :
  snd (create_po (H := rejecting_fills) "Acme.xlsx" "PO3" fs_ex)
  = [ValueError; ValueError]
  /\ success (snd (fst (create_po (H := rejecting_fills) "Acme.xlsx" "PO3" fs_ex)))
     = true
  /\ read_cell (fst (fst (create_po (H := rejecting_fills) "Acme.xlsx" "PO3" fs_ex)))
       "Acme.xlsx" "PO3" (3%positive, 2%positive)
     = Some (VNum 7).
Proof. vm_compute. repeat split. Qed.

Lemma get_vendor_details_latest_ex :
  get_vendor_details "Bolt Ltd" fs_ex
  = Details {| vd_name := "Bolt Ltd"; vd_address := VStr "2 New Road";
               vd_contact := VStr EmptyString; vd_email := VStr EmptyString |}.
Proof.
  destruct (get_vendor_details_latest fs_ex "Bolt Ltd"
              [("Acme.xlsx", acme_file); ("Beta.xlsx", beta_file);
               ("readme.txt", {| contents := None; locked := false |})]
              eq_refl) as (d & Hd & _ & Htwo).
  - intros n f [[= <- <-] | [[= <- <-] | [[= <- <-] | []]]] E; discriminate.
  - rewrite Hd. f_equal.
    rewrite (Htwo 100%Z 200%Z (po_sheet_ex "PO7" "Bolt Ltd" (VDatetime 100) "1 Old Street")
               (po_sheet_ex "PO1" "Bolt Ltd" (VDatetime 200) "2 New Road"));
      [reflexivity | right; reflexivity | lia].
Defined.

(** * Further properties of the operations *)

(** ** What a refusal leaves behind *)

Lemma sheetnames_update_sheet (n : string) (g : worksheet -> worksheet)
    (wb : workbook) :
  (forall ws, title (g ws) = title ws) ->
  sheetnames (update_sheet n g wb) = sheetnames wb.
Proof.
  intros Hg. unfold sheetnames.
  induction wb as [|ws wb IH]; simpl; [reflexivity |].
  destruct (String.eqb n (title ws)); simpl; [now rewrite Hg | now rewrite IH].
Qed.


Lemma update_sheet_twice (n : string) (g : worksheet -> worksheet) (wb : workbook) :
  (forall ws, title (g ws) = title ws) ->
  (forall ws, g (g ws) = g ws) ->
  update_sheet n g (update_sheet n g wb) = update_sheet n g wb.
Proof.
  intros Ht Hg. induction wb as [|ws wb IH]; simpl; [reflexivity |].
  destruct (String.eqb n (title ws)) eqn:E; simpl.
  - now rewrite Ht, E, Hg.
  - now rewrite E, IH.
Qed.

(** Saving what the file already holds leaves the file system as it is. *)
Lemma save_same (wb : workbook) (n : string) (fs : filesystem) :
  project_file fs n = Some {| contents := Some wb; locked := false |} ->
  save wb n fs = inr fs.
Proof.
  unfold save, project_file. destruct fs as [[l|] t]; simpl; [| discriminate].
  intros Hl. rewrite Hl. simpl. now rewrite (assoc_set_id _ _ _ Hl).
Qed.


(** X1: whenever [create_po] returns a failure, for whatever reason, the
    file system is the one it was called on: nothing is written. *)
Theorem create_po_failure_writes_nothing `{Openpyxl} (fs fs' : filesystem)
    (project_name po_name : string) (r : response) (log : list exn) :
  create_po project_name po_name fs = (fs', r, log) ->
  success r = false ->
  fs' = fs.
Proof.
  unfold create_po.
  destruct (project_file fs project_name); [| now intros [= <- <- <-]].
  destruct (template fs); [| now intros [= <- <- <-]].
  destruct (load_workbook f); [now intros [= <- <- <-] |].
  destruct (load_workbook f0) as [|twb]; [now intros [= <- <- <-] |].
  destruct (has_sheet po_name w); [now intros [= <- <- <-] |].
  destruct (create_sheet_title _ po_name); [now intros [= <- <- <-] |].
  destruct twb as [|template_sheet rest]; [now intros [= <- <- <-] |].
  destruct (copy_rows _ _) as [new_sheet log'].
  destruct (save _ project_name fs); intros [= <- <- <-]; [reflexivity | discriminate].
Qed.



(** ** Deleting twice, and what a deleted PO still is *)

(** What a successful [delete_po] computed. *)
Lemma delete_po_success_inv (fs fs' : filesystem) (project_name po_name : string)
    (r : response) :
  delete_po project_name po_name fs = (fs', r) ->
  success r = true ->
  exists f wb,
    project_file fs project_name = Some f
    /\ contents f = Some wb
    /\ has_sheet po_name wb = true
    /\ project_file fs' project_name
       = Some {| contents := Some (update_sheet po_name (set_tabColor red) wb);
                 locked := false |}
    /\ r = Success ("PO '" +:+ po_name +:+ "' marked as deleted.").
Proof.
  unfold delete_po, load_workbook.
  destruct (project_file fs project_name) as [f|]; [| now intros [= <- <-]].
  destruct (contents f) as [wb|] eqn:Hwb; [| now intros [= <- <-]].
  destruct (has_sheet po_name wb) eqn:Hin; simpl; [| now intros [= <- <-]].
  destruct (save _ project_name fs) as [e|fs2] eqn:Hsave;
    intros [= <- <-]; [discriminate |]. intros _.
  apply save_ok in Hsave as (Hnew & _ & _).
  exists f, wb. auto.
Qed.

Lemma has_sheet_update_sheet (n m : string) (g : worksheet -> worksheet)
    (wb : workbook) :
  (forall ws, title (g ws) = title ws) ->
  has_sheet m (update_sheet n g wb) = has_sheet m wb.
Proof. intros Hg. unfold has_sheet. now rewrite sheetnames_update_sheet. Qed.

(** X4: deleting a PO a second time changes nothing: the call succeeds again
    with the same message and the file system stays as the first call left
    it. *)
Theorem delete_po_twice (fs fs1 : filesystem) (project_name po_name : string)
    (r1 : response) :
  delete_po project_name po_name fs = (fs1, r1) ->
  success r1 = true ->
  delete_po project_name po_name fs1 = (fs1, r1).
Proof.
  intros Hd Hs.
  destruct (delete_po_success_inv _ _ _ _ _ Hd Hs) as (f & wb & _ & _ & Hin & Hnew & ->).
  unfold delete_po, load_workbook. rewrite Hnew. simpl.
  rewrite has_sheet_update_sheet, Hin by reflexivity. simpl.
  rewrite update_sheet_twice by reflexivity.
  now rewrite (save_same _ _ _ Hnew).
Qed.

(** X5: a deleted PO is still a sheet of the project: the listing of the
    project is the same before and after [delete_po] and contains the name,
    and [create_po] refuses to reuse the name. *)
Theorem deleted_po_keeps_its_name (fs fs1 : filesystem)
    (project_name po_name : string) (r1 : response) :
  delete_po project_name po_name fs = (fs1, r1) ->
  success r1 = true ->
  get_po_sheets project_name fs1 = get_po_sheets project_name fs
  /\ (exists listed,
        get_po_sheets project_name fs1 = Sheets listed /\ In po_name listed)
  /\ (forall (lib : Openpyxl), exists r,
        create_po (H := lib) project_name po_name fs1 = (fs1, r, [])
        /\ success r = false).
Proof.
  intros Hd Hs.
  destruct (delete_po_success_inv _ _ _ _ _ Hd Hs) as (f & wb & Hf & Hwb & Hin & Hnew & _).
  assert (Hnames : sheetnames (update_sheet po_name (set_tabColor red) wb)
                   = sheetnames wb) by now apply sheetnames_update_sheet.
  assert (Hlist : get_po_sheets project_name fs1
                  = Sheets (sort_by get_sheet_number (sheetnames wb))).
  { unfold get_po_sheets, load_workbook. rewrite Hnew. simpl. now rewrite Hnames. }
  split; [| split].
  - rewrite Hlist. unfold get_po_sheets, load_workbook. now rewrite Hf, Hwb.
  - eexists. split; [exact Hlist |].
    apply (Permutation_in _ (sort_by_perm get_sheet_number (sheetnames wb))).
    now apply has_sheet_In.
  - intros lib. unfold create_po, load_workbook. rewrite Hnew. simpl.
    rewrite has_sheet_update_sheet, Hin by reflexivity.
    destruct (template fs1) as [tf|]; [| eexists; split; reflexivity].
    destruct (contents tf); eexists; split; reflexivity.
Qed.

(** ** A created PO among the sheets *)

Lemma has_sheet_app (n : string) (wb : workbook) (ws : worksheet) :
  has_sheet n (wb ++ [ws]) = has_sheet n wb || String.eqb n (title ws).
Proof.
  unfold has_sheet, sheetnames. rewrite map_app, existsb_app. simpl.
  now rewrite orb_false_r.
Qed.

(** What a successful [create_po] computed. *)
Lemma create_po_success_inv `{Openpyxl} (fs fs' : filesystem)
    (project_name po_name : string) (r : response) (log : list exn) :
  create_po project_name po_name fs = (fs', r, log) ->
  success r = true ->
  exists pf wb t ws,
    project_file fs project_name = Some pf
    /\ contents pf = Some wb
    /\ has_sheet po_name wb = false
    /\ create_sheet_title (sheetnames wb) po_name = inr t
    /\ title ws = t
    /\ project_file fs' project_name
       = Some {| contents := Some (wb ++ [ws]); locked := false |}.
Proof.
  unfold create_po, load_workbook.
  destruct (project_file fs project_name) as [pf|]; [| now intros [= <- <- <-]].
  destruct (template fs) as [tf|]; [| now intros [= <- <- <-]].
  destruct (contents pf) as [wb|] eqn:Hwb; [| now intros [= <- <- <-]].
  destruct (contents tf) as [twb|]; [| now intros [= <- <- <-]].
  destruct (has_sheet po_name wb) eqn:Hin; [now intros [= <- <- <-] |].
  destruct (create_sheet_title _ po_name) as [e|t] eqn:Ht; [now intros [= <- <- <-] |].
  destruct twb as [|template_sheet rest]; [now intros [= <- <- <-] |].
  destruct (copy_rows_spec template_sheet t) as (_ & Htitle & _). cbv zeta in Htitle.
  destruct (copy_rows _ _) as [new_sheet log'].
  destruct (save _ project_name fs) as [e|fs2] eqn:Hsave;
    intros [= <- <- <-]; [discriminate |]. intros _.
  apply save_ok in Hsave as (Hnew & _ & _).
  exists pf, wb, t, new_sheet. auto 10.
Qed.

(** X6: after a successful [create_po] the listing of the project is the old
    listing with the title of the new sheet added (as a permutation: the
    listing is sorted again); a second [create_po] under that title is
    refused, and [delete_po] finds the new sheet. *)
Theorem created_po_is_listed `{Openpyxl} (fs fs1 : filesystem)
    (project_name po_name : string) (r : response) (log : list exn) :
  create_po project_name po_name fs = (fs1, r, log) ->
  success r = true ->
  exists old new t,
    create_sheet_title old po_name = inr t
    /\ get_po_sheets project_name fs = Sheets (sort_by get_sheet_number old)
    /\ get_po_sheets project_name fs1 = Sheets new
    /\ Permutation (t :: old) new
    /\ (exists r2, create_po project_name t fs1 = (fs1, r2, [])
                   /\ success r2 = false)
    /\ (exists fs2, delete_po project_name t fs1
                    = (fs2, Success ("PO '" +:+ t +:+ "' marked as deleted."))).
Proof.
  intros Hc Hs.
  destruct (create_po_success_inv _ _ _ _ _ _ Hc Hs)
    as (pf & wb & t & ws & Hpf & Hwb & _ & Ht & Htitle & Hnew).
  exists (sheetnames wb), (sort_by get_sheet_number (sheetnames (wb ++ [ws]))), t.
  split; [exact Ht |]. split.
  { unfold get_po_sheets, load_workbook. now rewrite Hpf, Hwb. }
  split.
  { unfold get_po_sheets, load_workbook. now rewrite Hnew. }
  split.
  { rewrite <- sort_by_perm. unfold sheetnames. rewrite map_app. simpl.
    rewrite Htitle. apply Permutation_cons_append. }
  assert (Hhas : has_sheet t (wb ++ [ws]) = true).
  { rewrite has_sheet_app, Htitle, String.eqb_refl. apply orb_true_r. }
  split.
  - unfold create_po, load_workbook. rewrite Hnew. simpl. rewrite Hhas.
    destruct (template fs1) as [tf|]; [| eexists; split; reflexivity].
    destruct (contents tf); eexists; split; reflexivity.
  - eapply delete_po_succeeds; [exact Hnew | reflexivity | reflexivity |].
    now apply has_sheet_In.
Qed.

(** ** A new project *)


Lemma strip_chars (P : ascii -> Prop) (s : string) :
  Forall P (chars s) -> Forall P (chars (strip s)).
Proof.
  destruct (strip_split s) as (pre & post & Heq & _).
  intros Hall. rewrite Heq, !chars_app in Hall.
  apply Forall_app in Hall as [_ Hall]. now apply Forall_app in Hall as [Hall _].
Qed.

Lemma startswith_rev_app (suffix a b : string) :
  startswith a b = true ->
  startswith (String.rev_app suffix a) (String.rev_app suffix b) = true.
Proof.
  revert a b. induction suffix as [|c suffix IH]; intros a b Hab; simpl;
    [exact Hab |].
  apply IH. simpl. now rewrite Ascii.eqb_refl.
Qed.

Lemma rev_app_append (a b acc : string) :
  String.rev_app (a +:+ b) acc = String.rev_app b (String.rev_app a acc).
Proof.
  revert acc. induction a as [|c a IH]; intros acc; [reflexivity |].
  rewrite append_cons. simpl. apply IH.
Qed.

Lemma endswith_append (suffix s : string) : endswith suffix (s +:+ suffix) = true.
Proof.
  unfold endswith, String.rev. rewrite rev_app_append.
  apply startswith_rev_app. reflexivity.
Qed.

(** X8: whatever the project name, the file name [create_excel_file] builds
    is made of safe characters only (so it has no "/" and no backslash and
    names a file directly inside the projects directory) and ends with
    ".xlsx". *)
Theorem project_file_name_is_safe (project_name : string) :
  let file_name := file_name_of (safe_project_name project_name) in
  Forall (fun c => safe_char c = true) (chars file_name)
  /\ ~ In "/"%char (chars file_name)
  /\ ~ In "\"%char (chars file_name)
  /\ endswith ".xlsx" file_name = true.
Proof.
  cbv zeta. unfold file_name_of.
  assert (Hsafe : Forall (fun c => safe_char c = true)
                    (chars (safe_project_name project_name +:+ ".xlsx"))).
  { rewrite chars_app. apply Forall_app. split; [| repeat constructor].
    unfold safe_project_name.
    pose proof (strip_chars _ _ (str_filter_all safe_char project_name)) as Hs.
    destruct (strip (str_filter safe_char project_name)); [repeat constructor | exact Hs]. }
  split; [exact Hsafe |].
  rewrite List.Forall_forall in Hsafe.
  split; [| split]; [intros Hin; apply Hsafe in Hin; discriminate .. |].
  apply endswith_append.
Qed.


(** ** Listing and opening projects *)

Lemma assoc_is_Some (n : string) (l : list (string * file)) :
  is_Some (assoc n l) <-> In n (map fst l).
Proof.
  induction l as [|[m f] l IH]; simpl.
  - split; [intros [? [=]] | tauto].
  - destruct (String.eqb n m) eqn:E.
    + apply String.eqb_eq in E. subst. split; eauto.
    + apply String.eqb_neq in E. rewrite IH. split; [tauto |].
      intros [Heq | Hin]; [congruence | exact Hin].
Qed.

(** The names listed are those of the existing project files that end with
    ".xlsx". *)
Lemma list_excel_files_spec (fs : filesystem) (n : string) :
  In n (list_excel_files fs)
  <-> is_Some (project_file fs n) /\ endswith ".xlsx" n = true.
Proof.
  unfold list_excel_files, project_file. destruct (projects fs) as [l|].
  - now rewrite List.filter_In, assoc_is_Some.
  - simpl. split; [tauto | intros [[? [=]] _]].
Qed.

(** X10: after a successful [create_excel_file] the new file is among the
    names [list_excel_files] returns, every other name is listed exactly
    when it was before, and each listed name is a file [get_po_sheets] does
    not report as missing. *)
Theorem created_project_is_listed (project_name : string) (fs fs1 : filesystem)
    (r : response) :
  create_excel_file project_name fs = (fs1, r) ->
  success r = true ->
  let file_name := file_name_of (safe_project_name project_name) in
  In file_name (list_excel_files fs1)
  /\ (forall m, m <> file_name ->
        (In m (list_excel_files fs1) <-> In m (list_excel_files fs)))
  /\ (forall m, In m (list_excel_files fs1) ->
        get_po_sheets m fs1 <> Failure ("Project '" +:+ m +:+ "' not found.")).
Proof.
  intros Hc Hs. destruct (create_excel_file_ok _ _ _ _ Hc Hs) as (Hnew & Hothers & _).
  cbv zeta in *. split; [| split].
  - apply list_excel_files_spec. rewrite Hnew. split; [eauto |].
    apply endswith_append.
  - intros m Hm. rewrite !list_excel_files_spec, (Hothers m Hm). reflexivity.
  - intros m Hm. apply list_excel_files_spec in Hm as [[f Hf] _].
    unfold get_po_sheets. rewrite Hf. now destruct (load_workbook f).
Qed.


(** ** The buttons of the PO window *)









(** ** The vendor file *)

Lemma dict_get_set_same (k : string) (v : json) (d : list (string * json)) :
  dict_get k (dict_set k v d) = Some v.
Proof.
  induction d as [|[k' v'] d IH]; simpl.
  - now rewrite String.eqb_refl.
  - destruct (String.eqb k k') eqn:E; simpl; now rewrite E.
Qed.

Lemma dict_get_set_other (k m : string) (v : json) (d : list (string * json)) :
  m <> k -> dict_get m (dict_set k v d) = dict_get m d.
Proof.
  intros Hm. induction d as [|[k' v'] d IH]; simpl.
  - apply String.eqb_neq in Hm. now rewrite Hm.
  - destruct (String.eqb k k') eqn:E; simpl.
    + apply String.eqb_eq in E. subst k'.
      apply String.eqb_neq in Hm. now rewrite Hm.
    + destruct (String.eqb m k'); [reflexivity | exact IH].
Qed.

Lemma dict_set_keys (k : string) (v : json) (d : list (string * json)) :
  map fst (dict_set k v d)
  = map fst d ++ match dict_get k d with Some _ => [] | None => [k] end.
Proof.
  induction d as [|[k' v'] d IH]; simpl; [reflexivity |].
  destruct (String.eqb k k'); simpl; [now rewrite app_nil_r | now rewrite IH].
Qed.

Lemma dict_set_set (k : string) (v w : json) (d : list (string * json)) :
  dict_set k w (dict_set k v d) = dict_set k w d.
Proof.
  induction d as [|[k' v'] d IH]; simpl.
  - now rewrite String.eqb_refl.
  - destruct (String.eqb k k') eqn:E; simpl; rewrite E; [reflexivity | now rewrite IH].
Qed.

(** X14: after a successful [save_vendor_details] the file is a JSON object
    in which the vendor name maps to the details given and every other name
    maps to what it did; the names keep their order, a new name going last.
    A file that did not exist counts as the empty object. *)
Theorem save_vendor_details_stores (vendor_name : string) (details : json)
    (vf vf' : option vendor_file) (r : response) :
  save_vendor_details vendor_name details vf = (vf', r) ->
  success r = true ->
  exists old new,
    (vf = None /\ old = [] \/ vf = Some (Json (JObj old)))
    /\ vf' = Some (Json (JObj new))
    /\ dict_get vendor_name new = Some details
    /\ (forall m, m <> vendor_name -> dict_get m new = dict_get m old)
    /\ map fst new
       = map fst old ++ match dict_get vendor_name old with
                        | Some _ => []
                        | None => [vendor_name]
                        end.
Proof.
  unfold save_vendor_details.
  destruct vf as [[|[| | | | |old]]|]; intros [= <- <-]; try discriminate; intros _.
  - exists old, (dict_set vendor_name details old).
    split; [now right |]. split; [reflexivity |].
    split; [apply dict_get_set_same |].
    split; [intros m Hm; now apply dict_get_set_other | apply dict_set_keys].
  - exists [], (dict_set vendor_name details []).
    split; [now left |]. split; [reflexivity |].
    split; [apply dict_get_set_same |].
    split; [intros m Hm; now apply dict_get_set_other | apply dict_set_keys].
Qed.


(** X16: the last write wins: saving a vendor's details and then saving
    other details for the same vendor leaves the file, and returns the
    dictionary, that saving the second details alone would. *)
Theorem save_vendor_details_last_wins (vendor_name : string) (d1 d2 : json)
    (vf vf1 : option vendor_file) (r1 : response) :
  save_vendor_details vendor_name d1 vf = (vf1, r1) ->
  success r1 = true ->
  save_vendor_details vendor_name d2 vf1 = save_vendor_details vendor_name d2 vf.
Proof.
  unfold save_vendor_details.
  destruct vf as [[|[| | | | |old]]|]; intros [= <- <-]; try discriminate; intros _.
  - now rewrite dict_set_set.
  - simpl. now rewrite String.eqb_refl.
Qed.

(** ** The vendor scan and the saved data *)

Lemma load_workbook_error (f : file) (e : exn) :
  load_workbook f = inl e -> e = InvalidFileException.
Proof. unfold load_workbook. destruct (contents f); now intros [= <-]. Qed.

(** X17: one ".xlsx" entry of the projects directory that is no readable
    workbook makes [get_vendor_details] fail, for every vendor name and
    wherever the entry stands in the directory. *)
Theorem get_vendor_details_unreadable_file (fs : filesystem)
    (l : list (string * file)) (vendor_name bad_name : string) (bad : file) :
  projects fs = Some l ->
  In (bad_name, bad) l ->
  endswith ".xlsx" bad_name = true ->
  contents bad = None ->
  get_vendor_details vendor_name fs = FailureExn InvalidFileException.
Proof.
  intros Hl Hin Hx Hbad. unfold get_vendor_details. rewrite Hl.
  assert (Hscan : forall st, scan_files vendor_name l st = inl InvalidFileException).
  { clear Hl. induction l as [|[n f] l IH]; intros st; [destruct Hin |].
    simpl. destruct Hin as [[= -> ->] | Hin].
    - rewrite Hx. unfold load_workbook. now rewrite Hbad.
    - destruct (endswith ".xlsx" n); [| now apply IH].
      destruct (load_workbook f) as [e|wb] eqn:E; [| now apply IH].
      now rewrite (load_workbook_error _ _ E). }
  now rewrite Hscan.
Qed.





(** ** The vendor and item listings *)

Section SortLebFacts.
Context {A : Type} (leb : A -> A -> bool) (P : A -> Prop).
Hypothesis leb_trans :
  forall a b c, leb a b = true -> leb b c = true -> leb a c = true.
Hypothesis leb_total :
  forall a b, P a -> P b -> leb a b = false -> leb b a = true.

Lemma insert_leb_perm (x : A) (l : list A) :
  Permutation (x :: l) (insert_leb leb x l).
Proof.
  induction l as [|y l IH]; simpl; [reflexivity |].
  destruct (leb x y); [reflexivity |].
  rewrite perm_swap. now apply perm_skip.
Qed.

Lemma sort_leb_perm (l : list A) : Permutation l (sort_leb leb l).
Proof.
  induction l as [|x l IH]; simpl; [reflexivity |].
  rewrite <- insert_leb_perm. now apply perm_skip.
Qed.

Lemma insert_leb_sorted (x : A) (l : list A) :
  P x -> Forall P l ->
  StronglySorted (fun a b => leb a b = true) l ->
  StronglySorted (fun a b => leb a b = true) (insert_leb leb x l).
Proof.
  intros Hx Hl Hs. induction Hs as [|y l Hs IH Hy]; simpl.
  - repeat constructor.
  - inversion Hl as [|? ? Py Pl]; subst.
    destruct (leb x y) eqn:E.
    + constructor; [now constructor |].
      constructor; [exact E |].
      eapply List.Forall_impl; [| exact Hy].
      intros z Hz. eapply leb_trans; eassumption.
    + constructor; [now apply IH |].
      apply (Permutation_Forall (insert_leb_perm x l)).
      constructor; [| exact Hy]. now apply leb_total.
Qed.

Lemma sort_leb_sorted (l : list A) :
  Forall P l -> StronglySorted (fun a b => leb a b = true) (sort_leb leb l).
Proof.
  induction l as [|x l IH]; simpl; intros Hl; [constructor |].
  inversion Hl; subst. apply insert_leb_sorted; auto.
  now apply (Permutation_Forall (sort_leb_perm l)).
Qed.

End SortLebFacts.

Lemma value_leb_trans (a b c : value) :
  value_leb a b = true -> value_leb b c = true -> value_leb a c = true.
Proof.
  destruct a, b, c; simpl; try discriminate;
    try (rewrite !Z.leb_le; lia);
    try (destruct b; rewrite !Z.leb_le; lia);
    try (destruct b0; rewrite !Z.leb_le; lia);
    try (destruct b, b0; rewrite !Z.leb_le; lia);
    try (destruct b, b0, b1; simpl; congruence).
  intros H1 H2. apply Is_true_true. apply Is_true_true in H1, H2.
  change (String.le s s1). change (String.le s s0) in H1. change (String.le s0 s1) in H2.
  etransitivity; eassumption.
Qed.

Lemma value_leb_total (a b : value) :
  orderable a b = true -> value_leb a b = false -> value_leb b a = true.
Proof.
  destruct a, b; simpl; try discriminate; intros _;
    try (rewrite Z.leb_gt, Z.leb_le; lia);
    try (destruct b; rewrite Z.leb_gt, Z.leb_le; lia);
    try (destruct b, b0; simpl; congruence).
  intros Hf. destruct (String.leb_total s s0) as [H|H]; congruence.
Qed.

Lemma orderable_trans (x a b : value) :
  orderable x a = true -> orderable x b = true -> orderable a b = true.
Proof. destruct x, a, b; simpl; congruence. Qed.

Lemma value_eqb_refl (v : value) : value_eqb v v = true.
Proof.
  destruct v as [| s | z | b | t | t]; simpl; try reflexivity;
    try apply Z.eqb_refl; try apply String.eqb_refl.
Qed.

Lemma value_eqb_str (s : string) (v : value) :
  value_eqb (VStr s) v = true -> v = VStr s.
Proof.
  destruct v; simpl; try discriminate. intros E.
  apply String.eqb_eq in E. now subst.
Qed.

Lemma value_eqb_str_r (s : string) (v : value) :
  value_eqb v (VStr s) = true -> v = VStr s.
Proof.
  destruct v as [| x | z | b | t | t]; simpl; try discriminate.
  intros E. apply String.eqb_eq in E. now subst.
Qed.

(** A text is in the set after [add] when it was, or is what was added. *)
Lemma set_add_In_str (s : string) (v : value) (acc : list value) :
  In (VStr s) (set_add v acc) <-> In (VStr s) acc \/ v = VStr s.
Proof.
  unfold set_add. destruct (existsb (value_eqb v) acc) eqn:E.
  - split; [tauto |]. intros [Hin | ->]; [exact Hin |].
    apply existsb_exists in E as (y & Hy & Heq).
    apply value_eqb_str in Heq. now subst.
  - rewrite in_app_iff. simpl. intuition congruence.
Qed.

Lemma set_add_NoDup (v : value) (acc : list value) :
  NoDup acc -> NoDup (set_add v acc).
Proof.
  intros Hnd. unfold set_add. destruct (existsb (value_eqb v) acc) eqn:E; [exact Hnd |].
  apply NoDup_app. split; [exact Hnd |]. split; [| repeat constructor; apply not_elem_of_nil].
  intros x Hx Hv. apply list_elem_of_singleton in Hv. subst x.
  assert (Hex : existsb (value_eqb v) acc = true).
  { apply existsb_exists. exists v. split; [now apply list_elem_of_In | apply value_eqb_refl]. }
  congruence.
Qed.

(** What the loops have found when no file failed to load. *)
Lemma visit_sheets_inr (visit : list value -> worksheet -> list value)
    (l : list (string * file)) (found out : list value) :
  visit_sheets visit l found = inr out ->
  out = fold_left visit (scanned_sheets l) found.
Proof.
  revert found. induction l as [|[n f] l IH]; intros found; simpl;
    [now intros [= <-] |].
  unfold scanned_sheets in *. simpl.
  destruct (endswith ".xlsx" n); [| apply IH].
  unfold load_workbook. destruct (contents f) as [wb|]; [| discriminate].
  simpl. rewrite fold_left_app. apply IH.
Qed.

Lemma visit_sheets_unreadable (visit : list value -> worksheet -> list value)
    (l : list (string * file)) (found : list value) (bad_name : string)
    (bad : file) :
  In (bad_name, bad) l ->
  endswith ".xlsx" bad_name = true ->
  contents bad = None ->
  visit_sheets visit l found = inl InvalidFileException.
Proof.
  intros Hin Hx Hbad. revert found.
  induction l as [|[n f] l IH]; intros found; [destruct Hin |].
  simpl. destruct Hin as [[= -> ->] | Hin].
  - rewrite Hx. unfold load_workbook. now rewrite Hbad.
  - destruct (endswith ".xlsx" n); [| now apply IH].
    destruct (load_workbook f) as [e|wb] eqn:E; [| now apply IH].
    now rewrite (load_workbook_error _ _ E).
Qed.

Lemma sorted_perm (s out : list value) : sorted s = inr out -> Permutation s out.
Proof.
  unfold sorted. destruct s as [|x [|y s]]; try (intros [= <-]; reflexivity).
  destruct (forallb _ _); [| discriminate].
  intros [= <-]. apply (sort_leb_perm value_leb (x :: y :: s)).
Qed.

Lemma sorted_sorted (s out : list value) :
  sorted s = inr out -> StronglySorted (fun a b => value_leb a b = true) out.
Proof.
  unfold sorted. destruct s as [|x [|y s]];
    try (intros [= <-]; repeat constructor).
  destruct (forallb _ _) eqn:E; [| discriminate].
  intros [= <-].
  apply (sort_leb_sorted value_leb (fun v => orderable x v = true)
           value_leb_trans) with (l := x :: y :: s).
  - intros a b Ha Hb. apply value_leb_total. eapply orderable_trans; eassumption.
  - apply List.Forall_forall. now apply forallb_forall.
Qed.

Lemma truthy_str (s : string) : truthy (VStr s) = true <-> s <> EmptyString.
Proof.
  simpl. rewrite negb_true_iff. split.
  - intros E. now apply String.eqb_neq.
  - intros Hs. now apply String.eqb_neq.
Qed.

Lemma add_vendor_NoDup (sheets : list worksheet) (acc : list value) :
  NoDup acc -> NoDup (fold_left add_vendor sheets acc).
Proof.
  revert acc. induction sheets as [|ws sheets IH]; intros acc Hnd; [exact Hnd |].
  simpl. apply IH. unfold add_vendor.
  destruct (startswith "PO" (title ws)); [| exact Hnd].
  destruct (truthy _); [now apply set_add_NoDup | exact Hnd].
Qed.

(** The texts the vendor loop has collected. *)
Lemma add_vendor_In_str (s : string) (sheets : list worksheet) (acc : list value) :
  In (VStr s) (fold_left add_vendor sheets acc)
  <-> In (VStr s) acc
      \/ (s <> EmptyString
          /\ exists ws, In ws sheets
                        /\ startswith "PO" (title ws) = true
                        /\ cell_value (get_cell ws B2) = VStr s).
Proof.
  revert acc. induction sheets as [|ws sheets IH]; intros acc; cbn [fold_left].
  - split; [tauto | intros [H | (_ & ws & [] & _)]; exact H].
  - rewrite IH. unfold add_vendor. cbv zeta.
    destruct (startswith "PO" (title ws)) eqn:Hpo.
    + destruct (truthy (cell_value (get_cell ws B2))) eqn:Htr.
      * rewrite set_add_In_str. split.
        -- intros [[Hin | Hv] | (Hs & w & Hw & Hp & Hc)];
             [tauto | | right; split; [exact Hs |]; exists w; split; [now right | auto]].
           right. rewrite Hv in Htr. apply truthy_str in Htr.
           split; [exact Htr |]. exists ws. split; [now left | auto].
        -- intros [Hin | (Hs & w & [<- | Hw] & Hp & Hc)]; [tauto | tauto | right; eauto 8].
      * split.
        -- intros [Hin | (Hs & w & Hw & Hp & Hc)];
             [tauto | right; split; [exact Hs |]; exists w; split; [now right | auto]].
        -- intros [Hin | (Hs & w & [<- | Hw] & Hp & Hc)]; [tauto | | right; eauto 8].
           rewrite Hc in Htr. apply truthy_str in Hs. congruence.
    + split.
      * intros [Hin | (Hs & w & Hw & Hp & Hc)];
          [tauto | right; split; [exact Hs |]; exists w; split; [now right | auto]].
      * intros [Hin | (Hs & w & [<- | Hw] & Hp & Hc)]; [tauto | congruence | right; eauto 8].
Qed.

(** X19: when [get_vendors] succeeds, the texts it returns are exactly the
    non-empty texts found in cell B2 of the sheets whose title starts with
    "PO", over all ".xlsx" files of the directory; the list is in ascending
    order and holds nothing twice. *)
Theorem get_vendors_lists_the_vendor_cells (fs : filesystem)
    (l : list (string * file)) (out : list value) :
  projects fs = Some l ->
  get_vendors fs = Vendors out ->
  (forall s,
     In (VStr s) out
     <-> s <> EmptyString
         /\ exists ws, In ws (scanned_sheets l)
                       /\ startswith "PO" (title ws) = true
                       /\ cell_value (get_cell ws B2) = VStr s)
  /\ StronglySorted (fun a b => value_leb a b = true) out
  /\ NoDup out.
Proof.
  intros Hl. unfold get_vendors. rewrite Hl.
  destruct (visit_sheets add_vendor l []) as [e|raw] eqn:Hv; [discriminate |].
  destruct (sorted raw) as [e|out'] eqn:Hsort; [discriminate |]. intros [= ->].
  apply visit_sheets_inr in Hv.
  pose proof (sorted_perm _ _ Hsort) as Hperm.
  split; [| split].
  - intros s.
    assert (Hin : In (VStr s) out <-> In (VStr s) raw).
    { split; apply Permutation_in; [now symmetry | exact Hperm]. }
    rewrite Hin, Hv, add_vendor_In_str. cbn [In]. tauto.
  - now apply sorted_sorted in Hsort.
  - rewrite <- Hperm, Hv. apply add_vendor_NoDup. constructor.
Qed.

(** X20: one ".xlsx" entry of the projects directory that is no readable
    workbook makes both listings fail, [get_vendors] and
    [get_items_for_vendor], whatever the other files hold. *)
Theorem listings_unreadable_file (fs : filesystem) (l : list (string * file))
    (vendor_name bad_name : string) (bad : file) :
  projects fs = Some l ->
  In (bad_name, bad) l ->
  endswith ".xlsx" bad_name = true ->
  contents bad = None ->
  get_vendors fs = ListingFailure InvalidFileException
  /\ get_items_for_vendor vendor_name fs = ListingFailure InvalidFileException.
Proof.
  intros Hl Hin Hx Hbad. unfold get_vendors, get_items_for_vendor. rewrite Hl.
  now rewrite !(visit_sheets_unreadable _ l [] bad_name bad Hin Hx Hbad).
Qed.

Lemma fold_left_collect {B} (step : list value -> B -> list value)
    (Q : B -> Prop) (x : value) :
  (forall acc b, In x (step acc b) <-> In x acc \/ Q b) ->
  forall bs acc,
    In x (fold_left step bs acc) <-> In x acc \/ exists b, In b bs /\ Q b.
Proof.
  intros Hstep. induction bs as [|b bs IH]; intros acc; cbn [fold_left].
  - split; [tauto | intros [H | (b & [] & _)]; exact H].
  - rewrite IH, Hstep. split.
    + intros [[Hin | Hq] | (b' & Hb' & Hq)];
        [tauto | right; exists b; split; [now left | exact Hq]
               | right; exists b'; split; [now right | exact Hq]].
    + intros [Hin | (b' & [<- | Hb'] & Hq)]; [tauto | tauto | right; eauto].
Qed.

Lemma fold_left_NoDup {B} (step : list value -> B -> list value) :
  (forall acc b, NoDup acc -> NoDup (step acc b)) ->
  forall bs acc, NoDup acc -> NoDup (fold_left step bs acc).
Proof.
  intros Hstep. induction bs as [|b bs IH]; intros acc Hnd; [exact Hnd |].
  simpl. apply IH, Hstep, Hnd.
Qed.

Lemma in_item_rows (ws : worksheet) (row : positive) :
  In row (item_rows ws) <-> 10 <= Pos.to_nat row <= max_row ws.
Proof.
  unfold item_rows. rewrite in_map_iff. split.
  - intros (n & <- & Hn). apply in_seq in Hn. rewrite Nat2Pos.id by lia. lia.
  - intros Hr. exists (Pos.to_nat row). split; [apply Pos2Nat.id |].
    apply in_seq. lia.
Qed.

Lemma max_row_ge (ws : worksheet) (k : coord) (c : cell) :
  cells ws !! k = Some c -> Pos.to_nat (fst k) <= max_row ws.
Proof.
  intros Hk. apply elem_of_map_to_list in Hk. apply list_elem_of_In in Hk.
  apply list_max_ge, in_map_iff. exists (k, c). auto.
Qed.

(** A cell that reads as a non-empty text lies within the used rows. *)
Lemma text_cell_within_rows (ws : worksheet) (k : coord) (s : string) :
  cell_value (get_cell ws k) = VStr s -> Pos.to_nat (fst k) <= max_row ws.
Proof.
  unfold get_cell. destruct (cells ws !! k) as [c|] eqn:Hk; [| discriminate].
  intros _. eapply max_row_ge. exact Hk.
Qed.

(** The texts the item loops add for one sheet. *)
Lemma add_items_In_str (vendor_name s : string) (acc : list value)
    (ws : worksheet) :
  In (VStr s) (add_items vendor_name acc ws)
  <-> In (VStr s) acc
      \/ (startswith "PO" (title ws) = true
          /\ value_is (cell_value (get_cell ws B2)) vendor_name = true
          /\ s <> EmptyString
          /\ exists row, 10 <= Pos.to_nat row
                         /\ cell_value (get_cell ws (row, col_A)) = VStr s).
Proof.
  unfold add_items.
  destruct (startswith "PO" (title ws)); [| intuition discriminate].
  destruct (value_is _ vendor_name); [| intuition discriminate].
  rewrite (fold_left_collect (add_item ws)
             (fun row => s <> EmptyString
                         /\ cell_value (get_cell ws (row, col_A)) = VStr s)).
  - split.
    + intros [Hin | (row & Hrow & Hs & Hc)]; [tauto |].
      right. apply in_item_rows in Hrow. repeat split; try reflexivity; [exact Hs |].
      exists row. split; [lia | exact Hc].
    + intros [Hin | (_ & _ & Hs & row & Hrow & Hc)]; [tauto |].
      right. exists row. split; [| tauto].
      apply in_item_rows. split; [exact Hrow |].
      apply (text_cell_within_rows ws (row, col_A) s Hc).
  - intros acc' row. unfold add_item. cbv zeta.
    destruct (truthy (cell_value (get_cell ws (row, col_A)))) eqn:Htr.
    + rewrite set_add_In_str. split.
      * intros [Hin | Hv]; [tauto |]. right. rewrite Hv in Htr.
        apply truthy_str in Htr. tauto.
      * intros [Hin | [_ Hv]]; tauto.
    + split; [tauto |]. intros [Hin | [Hs Hc]]; [exact Hin |].
      rewrite Hc in Htr. apply truthy_str in Hs. congruence.
Qed.

Lemma add_items_NoDup (vendor_name : string) (acc : list value) (ws : worksheet) :
  NoDup acc -> NoDup (add_items vendor_name acc ws).
Proof.
  intros Hnd. unfold add_items.
  destruct (startswith "PO" (title ws)); [| exact Hnd].
  destruct (value_is _ vendor_name); [| exact Hnd].
  apply fold_left_NoDup; [| exact Hnd].
  intros acc' row Hacc. unfold add_item. cbv zeta.
  destruct (truthy _); [now apply set_add_NoDup | exact Hacc].
Qed.

(** The texts a successful [get_items_for_vendor] returns. *)
Lemma get_items_In_str (fs : filesystem) (l : list (string * file))
    (vendor_name s : string) (out : list value) :
  projects fs = Some l ->
  get_items_for_vendor vendor_name fs = Items out ->
  In (VStr s) out
  <-> s <> EmptyString
      /\ exists ws row,
           In ws (scanned_sheets l)
           /\ startswith "PO" (title ws) = true
           /\ value_is (cell_value (get_cell ws B2)) vendor_name = true
           /\ 10 <= Pos.to_nat row
           /\ cell_value (get_cell ws (row, col_A)) = VStr s.
Proof.
  intros Hl. unfold get_items_for_vendor. rewrite Hl.
  destruct (visit_sheets _ l []) as [e|raw] eqn:Hv; [discriminate |].
  destruct (sorted raw) as [e|out'] eqn:Hsort; [discriminate |]. intros [= ->].
  apply visit_sheets_inr in Hv. pose proof (sorted_perm _ _ Hsort) as Hperm.
  assert (Hin : In (VStr s) out <-> In (VStr s) raw).
  { split; apply Permutation_in; [now symmetry | exact Hperm]. }
  rewrite Hin, Hv.
  rewrite (fold_left_collect (add_items vendor_name) _ _
             (fun acc ws => add_items_In_str vendor_name s acc ws)).
  cbn [In]. split.
  - intros [[] | (ws & Hws & Hpo & Hb2 & Hs & row & Hrow & Hc)].
    split; [exact Hs |]. exists ws, row. auto.
  - intros (Hs & ws & row & Hws & Hpo & Hb2 & Hrow & Hc).
    right. exists ws. repeat split; try assumption. eauto.
Qed.

(** X21: when [get_items_for_vendor] succeeds, the texts it returns are
    exactly the non-empty texts found in column A, from row 10 down, of the
    sheets whose title starts with "PO" and whose B2 is the vendor name, over
    all ".xlsx" files; the list is in ascending order and holds nothing
    twice. *)
Theorem get_items_lists_column_A (fs : filesystem) (l : list (string * file))
    (vendor_name : string) (out : list value) :
  projects fs = Some l ->
  get_items_for_vendor vendor_name fs = Items out ->
  (forall s,
     In (VStr s) out
     <-> s <> EmptyString
         /\ exists ws row,
              In ws (scanned_sheets l)
              /\ startswith "PO" (title ws) = true
              /\ value_is (cell_value (get_cell ws B2)) vendor_name = true
              /\ 10 <= Pos.to_nat row
              /\ cell_value (get_cell ws (row, col_A)) = VStr s)
  /\ StronglySorted (fun a b => value_leb a b = true) out
  /\ NoDup out.
Proof.
  intros Hl Hget. split; [intros s; now apply (get_items_In_str fs l) |].
  unfold get_items_for_vendor in Hget. rewrite Hl in Hget.
  destruct (visit_sheets _ l []) as [e|raw] eqn:Hv; [discriminate |].
  destruct (sorted raw) as [e|out'] eqn:Hsort; [discriminate |].
  injection Hget as ->.
  apply visit_sheets_inr in Hv. pose proof (sorted_perm _ _ Hsort) as Hperm.
  split; [now apply sorted_sorted in Hsort |].
  rewrite <- Hperm, Hv. apply fold_left_NoDup; [| constructor].
  intros acc ws. apply add_items_NoDup.
Qed.





Ltac value_cases :=
  simpl; try discriminate; try reflexivity;
  repeat match goal with b : bool |- _ => destruct b end;
  rewrite ?Z.eqb_eq, ?String.eqb_eq; try (intros; subst; solve [auto | lia]).

Lemma value_eqb_trans (a b c : value) :
  value_eqb a b = true -> value_eqb b c = true -> value_eqb a c = true.
Proof.
  destruct a as [|s1|z1|b1|t1|t1], b as [|s2|z2|b2|t2|t2], c as [|s3|z3|b3|t3|t3];
    value_cases.
Qed.

Lemma orderable_eqb_l (a a' b : value) :
  value_eqb a a' = true -> orderable a' b = orderable a b.
Proof.
  destruct a as [|s1|z1|b1|t1|t1], a' as [|s2|z2|b2|t2|t2], b as [|s3|z3|b3|t3|t3];
    value_cases.
Qed.

Lemma orderable_eqb_r (a b b' : value) :
  value_eqb b b' = true -> orderable a b' = orderable a b.
Proof.
  destruct a as [|s1|z1|b1|t1|t1], b as [|s2|z2|b2|t2|t2], b' as [|s3|z3|b3|t3|t3];
    value_cases.
Qed.

Lemma truthy_orderable (v : value) : truthy v = true -> orderable v v = true.
Proof. destruct v; simpl; congruence. Qed.

(** Adding keeps, up to equality, what was there and what is added. *)
Lemma set_add_has (v w : value) (acc : list value) :
  existsb (value_eqb v) acc = true \/ value_eqb v w = true ->
  existsb (value_eqb v) (set_add w acc) = true.
Proof.
  unfold set_add. destruct (existsb (value_eqb w) acc) eqn:E.
  - intros [H | H]; [exact H |].
    apply existsb_exists in E as (y & Hy & Hwy).
    apply existsb_exists. exists y. split; [exact Hy |].
    eapply value_eqb_trans; eassumption.
  - rewrite existsb_app. simpl. rewrite orb_false_r.
    intros [-> | ->]; [reflexivity | apply orb_true_r].
Qed.

Lemma add_vendor_has (v : value) (sheets : list worksheet) (acc : list value) :
  existsb (value_eqb v) acc = true
  \/ (exists ws, In ws sheets /\ startswith "PO" (title ws) = true
                 /\ cell_value (get_cell ws B2) = v /\ truthy v = true) ->
  existsb (value_eqb v) (fold_left add_vendor sheets acc) = true.
Proof.
  revert acc. induction sheets as [|ws sheets IH]; intros acc; cbn [fold_left].
  - intros [H | (ws & [] & _)]. exact H.
  - intros Hv. apply IH.
    destruct Hv as [Hacc | (w & [<- | Hw] & Hpo & Hc & Htr)].
    + left. unfold add_vendor.
      destruct (startswith "PO" (title ws)); [| exact Hacc].
      cbv zeta. destruct (truthy (cell_value (get_cell ws B2))); [| exact Hacc].
      apply set_add_has. now left.
    + left. unfold add_vendor. rewrite Hpo. cbv zeta. rewrite Hc, Htr.
      apply set_add_has. right. apply value_eqb_refl.
    + right. eauto 8.
Qed.

Lemma visit_sheets_loads (visit : list value -> worksheet -> list value)
    (l : list (string * file)) (found : list value) :
  (forall n f, In (n, f) l -> endswith ".xlsx" n = true -> contents f <> None) ->
  visit_sheets visit l found = inr (fold_left visit (scanned_sheets l) found).
Proof.
  revert found. induction l as [|[n f] l IH]; intros found Hload; [reflexivity |].
  unfold scanned_sheets in *. simpl.
  assert (Hl : forall n f, In (n, f) l -> endswith ".xlsx" n = true -> contents f <> None).
  { intros n0 f0 Hin. apply Hload. now right. }
  destruct (endswith ".xlsx" n) eqn:E; [| now apply IH].
  unfold load_workbook.
  destruct (contents f) as [wb|] eqn:Hwb;
    [| exfalso; now apply (Hload n f (or_introl eq_refl) E)].
  simpl. rewrite fold_left_app. now apply IH.
Qed.

(** Two elements that cannot be ordered make [sorted] raise. *)
Lemma sorted_raises (s : list value) (a b : value) :
  In a s -> In b s -> orderable a a = true -> orderable a b = false ->
  sorted s = inl TypeError.
Proof.
  intros Ha Hb Haa Hab. unfold sorted.
  destruct s as [|x [|y s]].
  - destruct Ha.
  - destruct Ha as [<- | []], Hb as [<- | []]. congruence.
  - destruct (forallb (orderable x) (x :: y :: s)) eqn:E; [| reflexivity].
    rewrite forallb_forall in E.
    pose proof (orderable_trans x a b (E a Ha) (E b Hb)). congruence.
Qed.

(** X23: [get_vendors] cannot list vendors of different kinds: when every
    ".xlsx" file loads and two "PO" sheets hold in B2 two values that Python
    cannot order (a text and a number, say), the call fails with the
    [TypeError] of the sort, however many well-formed vendors there are. *)
Theorem get_vendors_mixed_kinds (fs : filesystem) (l : list (string * file))
    (ws1 ws2 : worksheet) :
  projects fs = Some l ->
  (forall n f, In (n, f) l -> endswith ".xlsx" n = true -> contents f <> None) ->
  In ws1 (scanned_sheets l) -> In ws2 (scanned_sheets l) ->
  startswith "PO" (title ws1) = true -> startswith "PO" (title ws2) = true ->
  truthy (cell_value (get_cell ws1 B2)) = true ->
  truthy (cell_value (get_cell ws2 B2)) = true ->
  orderable (cell_value (get_cell ws1 B2)) (cell_value (get_cell ws2 B2)) = false ->
  get_vendors fs = ListingFailure TypeError.
Proof.
  intros Hl Hload Hw1 Hw2 Hp1 Hp2 Ht1 Ht2 Hord.
  unfold get_vendors. rewrite Hl, (visit_sheets_loads _ _ _ Hload).
  set (raw := fold_left add_vendor (scanned_sheets l) []).
  assert (H1 : existsb (value_eqb (cell_value (get_cell ws1 B2))) raw = true).
  { apply add_vendor_has. right. exists ws1. auto. }
  assert (H2 : existsb (value_eqb (cell_value (get_cell ws2 B2))) raw = true).
  { apply add_vendor_has. right. exists ws2. auto. }
  apply existsb_exists in H1 as (a & Ha & Ea).
  apply existsb_exists in H2 as (b & Hb & Eb).
  rewrite (sorted_raises raw a b Ha Hb); [reflexivity | |].
  - rewrite (orderable_eqb_l _ _ _ Ea), (orderable_eqb_r _ _ _ Ea).
    now apply truthy_orderable.
  - now rewrite (orderable_eqb_l _ _ _ Ea), (orderable_eqb_r _ _ _ Eb).
Qed.

(** ** Further worked instances *)

Lemma triple_eta {A B C} (x : A * B * C) : x = (fst (fst x), snd (fst x), snd x).
Proof. destruct x as [[a b] c]. reflexivity. Qed.

Lemma create_po_failure_writes_nothing_ex :
  fst (fst (create_po (H := rejecting_fills) "Acme.xlsx" "PO9" locked_fs)) = locked_fs
  /\ snd (fst (create_po (H := rejecting_fills) "Acme.xlsx" "PO9" locked_fs))
     = FailureExn PermissionError.
Proof.
  split; [| reflexivity].
  apply (create_po_failure_writes_nothing (H := rejecting_fills) locked_fs _
           "Acme.xlsx" "PO9" _ _ (triple_eta _)).
  reflexivity.
Defined.

Lemma delete_po_twice_ex :
  delete_po "Acme.xlsx" "PO1" (fst (delete_po "Acme.xlsx" "PO1" fs_ex))
  = delete_po "Acme.xlsx" "PO1" fs_ex.
Proof.
  rewrite (delete_po_twice fs_ex _ "Acme.xlsx" "PO1" _ (surjective_pairing _) eq_refl).
  symmetry. apply surjective_pairing.
Defined.

Lemma deleted_po_keeps_its_name_ex :
  get_po_sheets "Acme.xlsx" (fst (delete_po "Acme.xlsx" "PO1" fs_ex))
  = Sheets ["Sheet1"; "PO1"; "PO2"].
Proof.
  rewrite (proj1 (deleted_po_keeps_its_name fs_ex _ "Acme.xlsx" "PO1" _
                    (surjective_pairing _) eq_refl)).
  reflexivity.
Defined.

Lemma created_po_is_listed_ex :
  exists old new t,
    t = "PO3"
    /\ get_po_sheets "Acme.xlsx" fs_ex = Sheets (sort_by get_sheet_number old)
    /\ get_po_sheets "Acme.xlsx"
         (fst (fst (create_po (H := accepting_styles) "Acme.xlsx" "PO3" fs_ex)))
       = Sheets new
    /\ Permutation (t :: old) new.
Proof.
  destruct (created_po_is_listed (H := accepting_styles) fs_ex _ "Acme.xlsx" "PO3"
              _ _ (triple_eta _) eq_refl)
    as (old & new & t & Ht & Hold & Hnew & Hperm & _).
  exists old, new, t. simpl in Ht. injection Ht as <-. auto.
Defined.



Lemma created_project_is_listed_ex :
  In "New Job.xlsx" (list_excel_files (fst (create_excel_file "New Job?" fs_ex))).
Proof.
  apply (proj1 (created_project_is_listed "New Job?" fs_ex _ _
                  (surjective_pairing _) eq_refl)).
Defined.




Lemma save_vendor_details_stores_ex :
  exists new,
    fst (save_vendor_details "Bolt Ltd" (details_ex "2 New Road") vendor_file_ex)
    = Some (Json (JObj new))
    /\ dict_get "Bolt Ltd" new = Some (details_ex "2 New Road")
    /\ dict_get "Nut Co" new = Some (details_ex "4 Mill Lane")
    /\ map fst new = ["Nut Co"; "Bolt Ltd"].
Proof.
  destruct (save_vendor_details_stores "Bolt Ltd" (details_ex "2 New Road")
              vendor_file_ex _ _ (surjective_pairing _) eq_refl)
    as (old & new & Hold & Hnew & Hget & Hothers & Hkeys).
  destruct Hold as [[[=] _] | [= <-]].
  exists new. split; [exact Hnew |]. split; [exact Hget |].
  split; [rewrite Hothers; [reflexivity | discriminate] | exact Hkeys].
Defined.


Lemma save_vendor_details_last_wins_ex :
  save_vendor_details "Nut Co" (details_ex "5 Quay")
    (fst (save_vendor_details "Nut Co" (details_ex "9 Hill") vendor_file_ex))
  = (Some (Json (JObj [("Nut Co", details_ex "5 Quay")])),
     Success "Vendor 'Nut Co' details saved successfully.").
Proof.
  rewrite (save_vendor_details_last_wins "Nut Co" (details_ex "9 Hill")
             (details_ex "5 Quay") vendor_file_ex _ _ (surjective_pairing _) eq_refl).
  reflexivity.
Defined.

Lemma get_vendor_details_unreadable_file_ex :
  get_vendor_details "Bolt Ltd" broken_fs = FailureExn InvalidFileException.
Proof.
  apply (get_vendor_details_unreadable_file broken_fs
           [("Acme.xlsx", acme_file);
            ("Bad.xlsx", {| contents := None; locked := false |})]
           "Bolt Ltd" "Bad.xlsx" {| contents := None; locked := false |} eq_refl);
    [right; left; reflexivity | reflexivity | reflexivity].
Defined.

Lemma listings_unreadable_file_ex :
  get_vendors broken_fs = ListingFailure InvalidFileException
  /\ get_items_for_vendor "Bolt Ltd" broken_fs = ListingFailure InvalidFileException.
Proof.
  apply (listings_unreadable_file broken_fs
           [("Acme.xlsx", acme_file);
            ("Bad.xlsx", {| contents := None; locked := false |})]
           "Bolt Ltd" "Bad.xlsx" {| contents := None; locked := false |} eq_refl);
    [right; left; reflexivity | reflexivity | reflexivity].
Defined.


(** Before the save, sheet "PO1" gave the vendor's latest details; once it
    is saved with a text date the answer falls back to nothing. *)
Example saved_text_date_hides_the_po :
  get_vendor_details "Bolt Ltd" fs_ex
  = Details {| vd_name := "Bolt Ltd"; vd_address := VStr "2 New Road";
               vd_contact := VStr EmptyString; vd_email := VStr EmptyString |}
  /\ get_vendor_details "Bolt Ltd"
       (fst (save_po_data "Acme.xlsx" "PO1" (order_ex []) fs_ex))
     = Details {| vd_name := "Bolt Ltd"; vd_address := VStr "1 Old Street";
                  vd_contact := VStr EmptyString; vd_email := VStr EmptyString |}.
Proof. vm_compute. split; reflexivity. Qed.

Lemma get_vendors_lists_the_vendor_cells_ex :
  get_vendors workbooks_fs = Vendors [VStr "Bolt Ltd"; VStr "Nut Co"]
  /\ (In (VStr "Nut Co") [VStr "Bolt Ltd"; VStr "Nut Co"]
      <-> "Nut Co" <> EmptyString
          /\ exists ws,
               In ws (scanned_sheets
                        [("Gamma.xlsx", {| contents := Some gamma_wb; locked := false |});
                         ("Acme.xlsx", acme_file)])
               /\ startswith "PO" (title ws) = true
               /\ cell_value (get_cell ws B2) = VStr "Nut Co").
Proof.
  split; [reflexivity |].
  apply (get_vendors_lists_the_vendor_cells workbooks_fs
           [("Gamma.xlsx", {| contents := Some gamma_wb; locked := false |});
            ("Acme.xlsx", acme_file)]
           [VStr "Bolt Ltd"; VStr "Nut Co"] eq_refl eq_refl).
Defined.

Lemma get_items_lists_column_A_ex :
  NoDup [VStr "bolt"; VStr "nut"]
  /\ get_items_for_vendor "Bolt Ltd"
       (fst (save_po_data "Acme.xlsx" "PO1"
               (order_ex [item_ex "nut" 3; item_ex "bolt" 4; item_ex "nut" 1]) fs_ex))
     = Items [VStr "bolt"; VStr "nut"].
Proof.
  split; [| reflexivity].
  apply (get_items_lists_column_A
           (fst (save_po_data "Acme.xlsx" "PO1"
                   (order_ex [item_ex "nut" 3; item_ex "bolt" 4; item_ex "nut" 1]) fs_ex))
           _ "Bolt Ltd" [VStr "bolt"; VStr "nut"] eq_refl eq_refl).
Defined.


Lemma get_vendors_mixed_kinds_ex :
  get_vendors mixed_fs = ListingFailure TypeError.
Proof.
  apply (get_vendors_mixed_kinds mixed_fs
           [("Acme.xlsx", acme_file);
            ("Delta.xlsx",
             {| contents := Some [numbered_vendor_sheet]; locked := false |})]
           (po_sheet_ex "PO1" "Bolt Ltd" (VDatetime 200) "2 New Road")
           numbered_vendor_sheet eq_refl);
    try reflexivity.
  - intros n f [[= <- <-] | [[= <- <-] | []]] _; discriminate.
  - simpl. auto.
  - simpl. auto 10.
Defined.

(** ** The new sheet as a copy of the template *)

Section CloneFacts.
Context `{Openpyxl}.

(** One turn of the loop at [k] only reads the style the cell at [k] had, and
    leaves every other cell alone. *)
Lemma copy_cell_other (st : worksheet * list exn) (k k' : coord) (c : cell) :
  k <> k' -> get_cell (fst (copy_cell st (k, c))) k' = get_cell (fst st) k'.
Proof.
  intros Hk. destruct st as [ws log]. unfold copy_cell, copy_style, restyle.
  destruct (has_style c); [| simpl; now apply set_value_other].
  destruct (Font_init _); [simpl; now apply set_value_other |].
  destruct (Border_init _);
    [simpl; rewrite !get_cell_set_style; destruct (decide (k = k')); [contradiction |];
     now apply set_value_other |].
  destruct (PatternFill_init _);
    [simpl; rewrite !get_cell_set_style; destruct (decide (k = k')); [contradiction |];
     now apply set_value_other |].
  destruct (Alignment_init _); simpl;
    rewrite !get_cell_set_style; destruct (decide (k = k')); try contradiction;
    now apply set_value_other.
Qed.

Ltac at_k :=
  repeat (rewrite ?get_cell_set_style, ?get_cell_set_value;
          match goal with
          | |- context [decide (?k = ?k)] =>
              destruct (decide (k = k)) as [_|]; [| contradiction]
          end; cbn [cell_value cell_style]).

(** A turn on a cell that is still empty, or that already is the copy,
    leaves the copy. *)
Lemma copy_cell_same (st : worksheet * list exn) (k : coord) (c : cell) :
  get_cell (fst st) k = empty_cell \/ get_cell (fst st) k = copied_cell c ->
  get_cell (fst (copy_cell st (k, c))) k = copied_cell c.
Proof.
  destruct st as [ws log]. unfold copied_cell, copy_cell, copy_style, restyle.
  cbn [fst].
  destruct (has_style c).
  - destruct (Font_init _);
      [| destruct (Border_init _);
         [| destruct (PatternFill_init _); [| destruct (Alignment_init _)]]];
      cbn [fst]; intros [He | He]; at_k; rewrite ?He; at_k;
      try reflexivity; revert He; at_k; intros He; rewrite He; reflexivity.
  - cbn [fst]. intros [He | He]; at_k; rewrite ?He; try reflexivity;
      revert He; at_k; intros He; rewrite He; reflexivity.
Qed.

Lemma copied_empty_cell : copied_cell empty_cell = empty_cell.
Proof. reflexivity. Qed.

(** The loop over entries that hold the template's cells, from a sheet
    whose cells are empty or already copies. *)
Lemma copy_cells_clone (tpl : worksheet) (entries : list (coord * cell))
    (st : worksheet * list exn) :
  (forall k c, In (k, c) entries -> c = get_cell tpl k) ->
  (forall k, get_cell (fst st) k = empty_cell
             \/ get_cell (fst st) k = copied_cell (get_cell tpl k)) ->
  let st' := fold_left copy_cell entries st in
  (forall k, get_cell (fst st') k = empty_cell
             \/ get_cell (fst st') k = copied_cell (get_cell tpl k))
  /\ (forall k, get_cell (fst st) k = copied_cell (get_cell tpl k)
                \/ In k (map fst entries) ->
                get_cell (fst st') k = copied_cell (get_cell tpl k)).
Proof.
  revert st. induction entries as [|[k c] entries IH]; intros st Hent Hinv; cbv zeta.
  - split; [exact Hinv |]. intros k' [Hk | []]. exact Hk.
  - cbn [fold_left].
    assert (Hc : c = get_cell tpl k) by (apply Hent; now left).
    assert (Hstep : get_cell (fst (copy_cell st (k, c))) k
                    = copied_cell (get_cell tpl k)).
    { rewrite <- Hc. apply copy_cell_same. rewrite Hc. apply Hinv. }
    destruct (IH (copy_cell st (k, c))) as (Hinv' & Hdone).
    { intros k0 c0 Hin. apply Hent. now right. }
    { intros k'. destruct (decide (k = k')) as [<- | Hne]; [now right |].
      rewrite copy_cell_other by exact Hne. apply Hinv. }
    cbv zeta in *. split; [exact Hinv' |].
    intros k' [Hk | [Hk | Hk]]; apply Hdone.
    + left. destruct (decide (k = k')) as [<- | Hne]; [exact Hstep |].
      now rewrite copy_cell_other.
    + simpl in Hk. subst k'. now left.
    + now right.
Qed.

(** The whole copy, cell by cell. *)
Lemma copy_rows_clone (tpl : worksheet) (t : string) (k : coord) :
  get_cell (fst (copy_rows (iter_rows tpl) (empty_sheet t, []))) k
  = copied_cell (get_cell tpl k).
Proof.
  unfold copy_rows. rewrite fold_left_concat.
  destruct (copy_cells_clone tpl (concat (iter_rows tpl)) (empty_sheet t, []))
    as (Hinv & Hdone); [apply iter_rows_cells | intros k'; now left |].
  cbv zeta in *.
  destruct (cells tpl !! k) as [c|] eqn:Hk.
  - apply Hdone. right. eapply iter_rows_covers. exact Hk.
  - assert (Hempty : get_cell tpl k = empty_cell) by (unfold get_cell; now rewrite Hk).
    rewrite Hempty, copied_empty_cell.
    destruct (Hinv k) as [He | He]; [exact He |].
    now rewrite He, Hempty, copied_empty_cell.
Qed.

(** What a successful [create_po] saved. *)
Lemma create_po_success_copy (fs fs' : filesystem)
    (project_name po_name : string) (r : response) (log : list exn) :
  create_po project_name po_name fs = (fs', r, log) ->
  success r = true ->
  exists wb tf template_sheet rest new_sheet,
    template fs = Some tf
    /\ contents tf = Some (template_sheet :: rest)
    /\ project_file fs' project_name
       = Some {| contents := Some (wb ++ [new_sheet]); locked := false |}
    /\ (forall k, get_cell new_sheet k = copied_cell (get_cell template_sheet k))
    /\ log = omap cell_warning (concat (iter_rows template_sheet)).
Proof.
  unfold create_po, load_workbook.
  destruct (project_file fs project_name) as [pf|]; [| now intros [= <- <- <-]].
  destruct (template fs) as [tf|]; [| now intros [= <- <- <-]].
  destruct (contents pf) as [wb|]; [| now intros [= <- <- <-]].
  destruct (contents tf) as [twb|] eqn:Htwb; [| now intros [= <- <- <-]].
  destruct (has_sheet po_name wb); [now intros [= <- <- <-] |].
  destruct (create_sheet_title _ po_name) as [e|t]; [now intros [= <- <- <-] |].
  destruct twb as [|template_sheet rest]; [now intros [= <- <- <-] |].
  pose proof (copy_rows_clone template_sheet t) as Hclone.
  destruct (copy_rows_spec template_sheet t) as (_ & _ & Hlog). cbv zeta in Hlog.
  destruct (copy_rows _ _) as [new_sheet log']. cbn [fst snd] in Hclone, Hlog.
  destruct (save _ project_name fs) as [e|fs2] eqn:Hsave;
    intros [= <- <- <-]; [discriminate |]. intros _.
  apply save_ok in Hsave as (Hnew & _ & _).
  exists wb, tf, template_sheet, rest, new_sheet.
  split; [reflexivity |]. split; [exact Htwb |]. split; [exact Hnew |].
  split; [exact Hclone | exact Hlog].
Qed.

End CloneFacts.

Lemma Font_eta (f : Font) :
  {| font_name := font_name f; font_size := font_size f; font_bold := font_bold f;
     font_italic := font_italic f; font_vertAlign := font_vertAlign f;
     font_underline := font_underline f; font_strike := font_strike f;
     font_color := font_color f |} = f.
Proof. now destruct f. Qed.

Lemma Border_eta (b : Border) :
  {| border_left := border_left b; border_right := border_right b;
     border_top := border_top b; border_bottom := border_bottom b |} = b.
Proof. now destruct b. Qed.

Lemma PatternFill_eta (p : PatternFill) :
  {| fill_type := fill_type p; start_color := start_color p;
     end_color := end_color p |} = p.
Proof. now destruct p. Qed.

Lemma Alignment_eta (a : Alignment) :
  {| horizontal := horizontal a; vertical := vertical a;
     text_rotation := text_rotation a; wrap_text := wrap_text a;
     shrink_to_fit := shrink_to_fit a; indent := indent a |} = a.
Proof. now destruct a. Qed.

Ltac read_at_k :=
  repeat (rewrite ?get_cell_set_style, ?get_cell_set_value;
          match goal with
          | |- context [decide (?k = ?k)] =>
              destruct (decide (k = k)) as [_|]; [| contradiction]
          end; cbn [cell_value cell_style]).

Lemma no_style_is_default (c : cell) :
  has_style c = false -> cell_style c = default_style.
Proof.
  unfold has_style. intros Hb. apply bool_decide_eq_false in Hb.
  destruct (decide (cell_style c = default_style)) as [E | E]; [exact E |].
  contradiction.
Qed.

Section CloneResults.
Context `{Openpyxl}.

(** The copy of a cell, spelled out over the outcomes of the four
    constructors. *)
Lemma copied_cell_unfold (c : cell) :
  copied_cell c =
  {| cell_value := cell_value c;
     cell_style :=
       if has_style c then
         match Font_init (font (cell_style c)) with
         | inl _ => default_style
         | inr f =>
             match Border_init (border (cell_style c)) with
             | inl _ => set_font f default_style
             | inr b =>
                 match PatternFill_init (fill (cell_style c)) with
                 | inl _ => set_border b (set_font f default_style)
                 | inr p =>
                     match Alignment_init (alignment (cell_style c)) with
                     | inl _ =>
                         set_number_format (number_format (cell_style c))
                           (set_fill p (set_border b (set_font f default_style)))
                     | inr a =>
                         set_alignment a
                           (set_number_format (number_format (cell_style c))
                              (set_fill p (set_border b (set_font f default_style))))
                     end
                 end
             end
         end
       else default_style |}.
Proof.
  unfold copied_cell, copy_cell, copy_style, restyle.
  rewrite Font_eta, Border_eta, PatternFill_eta, Alignment_eta.
  destruct (has_style c); [| cbn [fst]; read_at_k; reflexivity].
  destruct (Font_init _); [cbn [fst]; read_at_k; reflexivity |].
  destruct (Border_init _); [cbn [fst]; read_at_k; reflexivity |].
  destruct (PatternFill_init _); [cbn [fst]; read_at_k; reflexivity |].
  destruct (Alignment_init _); cbn [fst]; read_at_k; reflexivity.
Qed.

(** X24: when each of the four style constructors returns the style made of
    the attributes it is given, a successful [create_po] saves a new sheet
    that agrees with the template sheet at every coordinate, in the value and
    in every style attribute the copy reads (the eight of the font, the four
    sides of the border, the three of the fill, the number format and the six
    of the alignment), and prints no warning. *)
Theorem create_po_clones_template (fs fs1 : filesystem)
    (project_name po_name : string) (r : response) (log : list exn) :
  (forall f, Font_init f = inr f) ->
  (forall b, Border_init b = inr b) ->
  (forall p, PatternFill_init p = inr p) ->
  (forall a, Alignment_init a = inr a) ->
  create_po project_name po_name fs = (fs1, r, log) ->
  success r = true ->
  log = []
  /\ exists wb tf template_sheet rest new_sheet,
       template fs = Some tf
       /\ contents tf = Some (template_sheet :: rest)
       /\ project_file fs1 project_name
          = Some {| contents := Some (wb ++ [new_sheet]); locked := false |}
       /\ forall k, get_cell new_sheet k = get_cell template_sheet k.
Proof.
  intros Hf Hb Hp Ha Hc Hs.
  destruct (create_po_success_copy _ _ _ _ _ _ Hc Hs)
    as (wb & tf & template_sheet & rest & new_sheet & Htf & Htwb & Hnew & Hclone & Hlog).
  split.
  - rewrite Hlog. generalize (concat (iter_rows template_sheet)).
    intros entries. induction entries as [|[k c] entries IH]; [reflexivity |].
    cbn [omap list_omap]. change (omap cell_warning entries) with (omap cell_warning entries).
    unfold cell_warning at 1. cbn [snd].
    unfold style_error, copy_style. rewrite Font_eta, Border_eta, PatternFill_eta,
      Alignment_eta, Hf, Hb, Hp, Ha. cbn [snd].
    destruct (has_style c); exact IH.
  - exists wb, tf, template_sheet, rest, new_sheet.
    split; [exact Htf |]. split; [exact Htwb |]. split; [exact Hnew |].
    intros k. rewrite Hclone, copied_cell_unfold, Hf, Hb, Hp, Ha.
    destruct (has_style (get_cell template_sheet k)) eqn:E.
    + destruct (get_cell template_sheet k) as [v [f b p n a]]. reflexivity.
    + rewrite <- (no_style_is_default _ E).
      now destruct (get_cell template_sheet k).
Qed.

(** X25: the style copy stops at the first constructor that raises and
    keeps what was assigned before: a styled template cell whose fill is
    rejected, after its font and border were accepted, arrives in the new
    sheet with its value, that font and that border, and with the default
    fill, number format and alignment. *)
Theorem rejected_fill_keeps_font_and_border (fs fs1 : filesystem)
    (project_name po_name : string) (r : response) (log : list exn) :
  create_po project_name po_name fs = (fs1, r, log) ->
  success r = true ->
  exists wb tf template_sheet rest new_sheet,
    template fs = Some tf
    /\ contents tf = Some (template_sheet :: rest)
    /\ project_file fs1 project_name
       = Some {| contents := Some (wb ++ [new_sheet]); locked := false |}
    /\ forall k f b e,
         has_style (get_cell template_sheet k) = true ->
         Font_init (font (cell_style (get_cell template_sheet k))) = inr f ->
         Border_init (border (cell_style (get_cell template_sheet k))) = inr b ->
         PatternFill_init (fill (cell_style (get_cell template_sheet k))) = inl e ->
         get_cell new_sheet k
         = {| cell_value := cell_value (get_cell template_sheet k);
              cell_style :=
                {| font := f; border := b; fill := fill default_style;
                   number_format := number_format default_style;
                   alignment := alignment default_style |} |}.
Proof.
  intros Hc Hs.
  destruct (create_po_success_copy _ _ _ _ _ _ Hc Hs)
    as (wb & tf & template_sheet & rest & new_sheet & Htf & Htwb & Hnew & Hclone & _).
  exists wb, tf, template_sheet, rest, new_sheet.
  split; [exact Htf |]. split; [exact Htwb |]. split; [exact Hnew |].
  intros k f b e Hst Hf Hb Hp.
  now rewrite Hclone, copied_cell_unfold, Hst, Hf, Hb, Hp.
Qed.

End CloneResults.

Lemma create_po_clones_template_ex :
  snd (create_po (H := accepting_styles) "Acme.xlsx" "PO3" fs_ex) = []
  /\ read_cell (fst (fst (create_po (H := accepting_styles) "Acme.xlsx" "PO3" fs_ex)))
       "Acme.xlsx" "PO3" (1%positive, 1%positive)
     = Some (VStr "PURCHASE ORDER").
Proof.
  split; [| reflexivity].
  apply (create_po_clones_template (H := accepting_styles) fs_ex _ "Acme.xlsx" "PO3"
           _ _ (fun _ => eq_refl) (fun _ => eq_refl) (fun _ => eq_refl)
           (fun _ => eq_refl) (triple_eta _) eq_refl).
Defined.

Lemma rejected_fill_keeps_font_and_border_ex :
  exists wb new_sheet,
    project_file (fst (fst (create_po (H := rejecting_fills) "Acme.xlsx" "PO3" fs_ex)))
      "Acme.xlsx"
    = Some {| contents := Some (wb ++ [new_sheet]); locked := false |}
    /\ get_cell new_sheet (1%positive, 1%positive)
       = {| cell_value := VStr "PURCHASE ORDER";
            cell_style :=
              {| font := font bold; border := border default_style;
                 fill := fill default_style;
                 number_format := number_format default_style;
                 alignment := alignment default_style |} |}.
Proof.
  destruct (rejected_fill_keeps_font_and_border (H := rejecting_fills) fs_ex _
              "Acme.xlsx" "PO3" _ _ (triple_eta _) eq_refl)
    as (wb & tf & template_sheet & rest & new_sheet & Htf & Htwb & Hnew & Hcell).
  exists wb, new_sheet. split; [exact Hnew |].
  simpl in Htf. injection Htf as <-. simpl in Htwb. injection Htwb as <- <-.
  apply (Hcell (1%positive, 1%positive) (font bold) (border default_style) ValueError);
    reflexivity.
Defined.
